(** * kmonad_dump: KMonad configuration to keyboard-layout-editor raw data

    A shallow embedding of [kmonad_dump.py] and the properties of its
    translation table, keycap model, layer model, section patterns and
    renderer.

    Python strings are sequences of Unicode code points; they are modelled
    as lists of code points ([N]).  Dictionaries keep insertion order and
    are modelled as association lists with in-place update.  The global
    [kmonad_aliases] table and the console are threaded through a small
    state-and-exception monad. *)

From Stdlib Require Import String Ascii.
From Stdlib Require Import List NArith ZArith Arith Bool Lia.
Import ListNotations.

Set Implicit Arguments.

(* ===================================================================== *)
(** ** Python strings                                                     *)
(* ===================================================================== *)

Module PyStr.

(** A code point. *)
Definition char : Type := N.

(** A Python [str]. *)
Definition str : Type := list char.

Definition chr_eqb (a b : char) : bool := N.eqb a b.

Fixpoint eqb (a b : str) : bool :=
  match a, b with
  | [], [] => true
  | x :: a', y :: b' => chr_eqb x y && eqb a' b'
  | _, _ => false
  end.

Lemma eqb_spec (a b : str) : reflect (a = b) (eqb a b).
Proof.
  revert b; induction a as [|x a IH]; intros [|y b]; simpl;
    try (constructor; congruence).
  unfold chr_eqb. destruct (N.eqb_spec x y) as [->|Hxy]; simpl.
  - destruct (IH b) as [->|Hab]; constructor; congruence.
  - constructor; congruence.
Qed.

Lemma eqb_refl (a : str) : eqb a a = true.
Proof. destruct (eqb_spec a a); congruence. Qed.

Lemma eqb_eq (a b : str) : eqb a b = true <-> a = b.
Proof. destruct (eqb_spec a b); split; congruence. Qed.

Lemma eqb_neq (a b : str) : eqb a b = false <-> a <> b.
Proof. destruct (eqb_spec a b); split; congruence. Qed.

(** *** Literals

    Source literals are written as Rocq strings, which hold the UTF-8
    bytes of this file; [u] decodes them to code points. *)

Definition byte_of (a : ascii) : N := N_of_ascii a.

(** Payload of a continuation byte [10xxxxxx]. *)
Definition cont (b : N) : N := N.land b 63.

Fixpoint decode (bs : list N) : str :=
  match bs with
  | [] => []
  | b :: rest =>
    if N.ltb b 128 then b :: decode rest
    else if N.ltb b 224 then
      match rest with
      | b1 :: rest' => (N.land b 31 * 64 + cont b1)%N :: decode rest'
      | _ => [b]
      end
    else if N.ltb b 240 then
      match rest with
      | b1 :: b2 :: rest' =>
        (N.land b 15 * 4096 + cont b1 * 64 + cont b2)%N :: decode rest'
      | _ => [b]
      end
    else
      match rest with
      | b1 :: b2 :: b3 :: rest' =>
        (N.land b 7 * 262144 + cont b1 * 4096 + cont b2 * 64 + cont b3)%N
          :: decode rest'
      | _ => [b]
      end
  end.

Definition u (s : string) : str :=
  decode (map byte_of (list_ascii_of_string s)).

(** Characters that cannot be written inside a string literal here. *)
Definition dquote : char := 34%N.
Definition backslash : char := 92%N.
Definition newline : char := 10%N.

(** *** Character classes *)

Definition in_range (lo hi c : N) : bool := N.leb lo c && N.leb c hi.

(** [str.isspace] on one character, which is also what the pattern class
    [\s] and [str.split()] use: the code points with bidirectional type
    WS, B or S, or category Zs. *)
Definition isspace (c : char) : bool :=
  in_range 9 13 c || in_range 28 32 c || N.eqb c 133 || N.eqb c 160
  || N.eqb c 5760 || in_range 8192 8202 c || N.eqb c 8232 || N.eqb c 8233
  || N.eqb c 8239 || N.eqb c 8287 || N.eqb c 12288.

(** Line boundaries of [str.splitlines]. *)
Definition islinebreak (c : char) : bool :=
  in_range 10 13 c || in_range 28 30 c || N.eqb c 133
  || N.eqb c 8232 || N.eqb c 8233.

Definition is_ascii_upper (c : char) : bool := in_range 65 90 c.
Definition is_ascii_lower (c : char) : bool := in_range 97 122 c.

(** *** [str.split()] with no argument: the maximal runs of
    non-whitespace characters. *)

Fixpoint split_aux (cur : str) (s : str) : list str :=
  match s with
  | [] => match cur with [] => [] | _ => [rev cur] end
  | c :: s' =>
    if isspace c
    then match cur with
         | [] => split_aux [] s'
         | _ => rev cur :: split_aux [] s'
         end
    else split_aux (c :: cur) s'
  end.

Definition split (s : str) : list str := split_aux [] s.

(** *** [str.splitlines()]: a carriage return followed by a line feed is
    one boundary; a boundary at the very end opens no further line. *)

Fixpoint splitlines_aux (cur : str) (s : str) : list str :=
  match s with
  | [] => match cur with [] => [] | _ => [rev cur] end
  | c :: s' =>
    if islinebreak c
    then
      rev cur ::
        match s' with
        | d :: t =>
          if N.eqb c 13 && N.eqb d 10
          then splitlines_aux [] t
          else splitlines_aux [] s'
        | [] => []
        end
    else splitlines_aux (c :: cur) s'
  end.

Definition splitlines (s : str) : list str := splitlines_aux [] s.

(** *** [sep.join(parts)] *)

Fixpoint join (sep : str) (parts : list str) : str :=
  match parts with
  | [] => []
  | [p] => p
  | p :: rest => p ++ sep ++ join sep rest
  end.

(** *** [s.replace(old, new)] for a one-character [old], which is how the
    program calls it (a backslash, a line feed). *)

Definition replace (old : char) (new : str) (s : str) : str :=
  flat_map (fun c => if chr_eqb c old then new else [c]) s.

(** *** [s.rstrip(chars)]: drop the longest suffix made of characters of
    [chars]. *)

Definition mem (c : char) (chars : str) : bool := existsb (chr_eqb c) chars.

Fixpoint lstrip (chars : str) (s : str) : str :=
  match s with
  | c :: s' => if mem c chars then lstrip chars s' else s
  | [] => []
  end.

Definition rstrip (chars : str) (s : str) : str :=
  rev (lstrip chars (rev s)).

End PyStr.

Import PyStr.

(* ===================================================================== *)
(** ** Python dictionaries                                                *)
(* ===================================================================== *)

Module PyDict.

(** A [dict] with [str] keys: the items in insertion order, no key
    twice. *)
Definition dict (V : Type) : Type := list (str * V).

Section Ops.
Variable V : Type.

(** [d.get(k)] *)
Fixpoint get (k : str) (d : dict V) : option V :=
  match d with
  | [] => None
  | (k', v) :: d' => if PyStr.eqb k k' then Some v else get k d'
  end.

(** [d[k] = v]: an existing key keeps its place and takes the new
    value; a new key goes to the end. *)
Fixpoint set (k : str) (v : V) (d : dict V) : dict V :=
  match d with
  | [] => [(k, v)]
  | (k', v') :: d' =>
    if PyStr.eqb k k' then (k', v) :: d' else (k', v') :: set k v d'
  end.

(** [d.get(k, default)] *)
Definition get_default (k : str) (default : V) (d : dict V) : V :=
  match get k d with Some v => v | None => default end.

Definition keys (d : dict V) : list str := map fst d.
Definition values (d : dict V) : list V := map snd d.

Lemma get_set_same (k : str) (v : V) (d : dict V) :
  get k (set k v d) = Some v.
Proof.
  induction d as [|[k' v'] d IH]; simpl.
  - now rewrite PyStr.eqb_refl.
  - destruct (PyStr.eqb k k') eqn:E; simpl; rewrite E; auto.
Qed.

Lemma get_set_other (k k0 : str) (v : V) (d : dict V) :
  k0 <> k -> get k0 (set k v d) = get k0 d.
Proof.
  intros Hne; induction d as [|[k' v'] d IH]; simpl.
  - apply PyStr.eqb_neq in Hne. now rewrite Hne.
  - destruct (PyStr.eqb k k') eqn:E; simpl.
    + apply PyStr.eqb_eq in E; subst k'.
      apply PyStr.eqb_neq in Hne. now rewrite Hne.
    + now rewrite IH.
Qed.

Lemma get_In (k : str) (v : V) (d : dict V) :
  get k d = Some v -> In (k, v) d.
Proof.
  induction d as [|[k' v'] d IH]; simpl; [discriminate|].
  destruct (PyStr.eqb_spec k k') as [->|Hne].
  - intros [= ->]; now left.
  - intros H; right; auto.
Qed.

Lemma keys_set (k : str) (v : V) (d : dict V) :
  keys (set k v d) =
  match get k d with Some _ => keys d | None => keys d ++ [k] end.
Proof.
  induction d as [|[k' v'] d IH]; simpl; [reflexivity|].
  destruct (PyStr.eqb k k') eqn:E; simpl; [reflexivity|].
  fold (keys (set k v d)). rewrite IH. now destruct (get k d).
Qed.

Lemma get_None_keys (k : str) (d : dict V) :
  get k d = None -> ~ In k (keys d).
Proof.
  induction d as [|[k' v'] d IH]; simpl; [tauto|].
  destruct (PyStr.eqb_spec k k') as [->|Hne]; [discriminate|].
  intros H [Hk|Hk]; [congruence | now apply IH].
Qed.

Lemma set_NoDup (k : str) (v : V) (d : dict V) :
  NoDup (keys d) -> NoDup (keys (set k v d)).
Proof.
  intros Hnd. rewrite keys_set. destruct (get k d) eqn:E; [assumption|].
  apply NoDup_app; [assumption | repeat constructor; intros [] |].
  intros x Hx [<-|[]]. now apply (get_None_keys k d E).
Qed.
End Ops.

End PyDict.

(* ===================================================================== *)
(** ** Patterns ([re])                                                    *)
(* ===================================================================== *)

Module Re.

(** The constructs the program's patterns use (all compiled with
    [re.X | re.DOTALL], so layout white space in a pattern is not part of
    it and [.] matches every character). *)
Inductive regex : Type :=
| Eps                                         (* empty pattern *)
| Chr (cls : char -> bool)                    (* one character of a class *)
| Seq (r1 r2 : regex)                         (* r1 r2 *)
| Alt (r1 r2 : regex)                         (* r1 | r2 *)
| Rep (greedy : bool) (min : nat) (r : regex) (* r* r+ (greedy), r*? r+? *)
| Group (name : string) (r : regex)           (* (?P<name>r) *)
| NotBehind (cls : char -> bool)              (* (?<!x) *)
| Eos.                                        (* $ *)

(** A position in the subject: the characters before it (nearest first)
    and those after it. *)
Record cursor : Type := Cursor { before : str; after : str }.

Definition pos (c : cursor) : nat := length (before c).

(** Spans of the named groups that took part in the match. *)
Definition groups : Type := list (string * (nat * nat)).

Fixpoint lookup (name : string) (gs : groups) : option (nat * nat) :=
  match gs with
  | [] => None
  | (n, sp) :: gs' => if String.eqb name n then Some sp else lookup name gs'
  end.

Section Matcher.
Variable A : Type.

(** A matcher takes the position, the groups so far and what to do
    with the rest of the pattern; it answers with the first success in
    the order a backtracking engine tries the alternatives. *)
Definition cont : Type := cursor -> groups -> option A.
Definition matcher : Type := cursor -> groups -> cont -> option A.

(** [$]: the end of the subject, or just before a line feed that ends
    it. *)
Definition at_eos (c : cursor) : bool :=
  match after c with
  | [] => true
  | [x] => chr_eqb x newline
  | _ => false
  end.

(** Repetition.  [n] bounds the number of rounds by the characters
    left; a round that consumes nothing is not repeated. *)
Fixpoint rep_loop (body : matcher) (greedy : bool) (n min : nat)
         (c : cursor) (gs : groups) (k : cont) : option A :=
  let stop := fun _ : unit => if Nat.eqb min 0 then k c gs else None in
  match n with
  | O => stop tt
  | S n' =>
    let more := fun _ : unit =>
      body c gs (fun c' gs' =>
        if Nat.ltb (length (after c')) (length (after c))
        then rep_loop body greedy n' (Nat.pred min) c' gs' k
        else None) in
    if greedy
    then match more tt with Some x => Some x | None => stop tt end
    else match stop tt with Some x => Some x | None => more tt end
  end.

Fixpoint rmatch (r : regex) : matcher :=
  match r with
  | Eps => fun c gs k => k c gs
  | Chr cls => fun c gs k =>
    match after c with
    | x :: rest => if cls x then k (Cursor (x :: before c) rest) gs
                   else None
    | [] => None
    end
  | Seq r1 r2 => fun c gs k =>
    rmatch r1 c gs (fun c' gs' => rmatch r2 c' gs' k)
  | Alt r1 r2 => fun c gs k =>
    match rmatch r1 c gs k with
    | Some x => Some x
    | None => rmatch r2 c gs k
    end
  | Rep greedy min r' => fun c gs k =>
    rep_loop (rmatch r') greedy (length (after c)) min c gs k
  | Group name r' => fun c gs k =>
    rmatch r' c gs (fun c' gs' => k c' ((name, (pos c, pos c')) :: gs'))
  | NotBehind cls => fun c gs k =>
    match before c with
    | x :: _ => if cls x then None else k c gs
    | [] => k c gs
    end
  | Eos => fun c gs k => if at_eos c then k c gs else None
  end.
End Matcher.

(** A match object. *)
Record Match : Type := MkMatch {
  m_start : nat;
  m_end : nat;
  m_groups : groups;
  m_stop : cursor   (* where the match ended *)
}.

Definition match_at (r : regex) (c : cursor) : option Match :=
  rmatch r c [] (fun c' gs => Some (MkMatch (pos c) (pos c') gs c')).

(** [pattern.search]: the match at the leftmost position that has one. *)
Fixpoint search_from (r : regex) (bef aft : str) : option Match :=
  match match_at r (Cursor bef aft) with
  | Some m => Some m
  | None =>
    match aft with
    | [] => None
    | x :: aft' => search_from r (x :: bef) aft'
    end
  end.

Definition search (r : regex) (s : str) : option Match :=
  search_from r [] s.

(** [pattern.finditer]: the successive non-overlapping matches.  Every
    pattern iterated in this program begins with a literal parenthesis,
    so a match is never empty; the scan ends on an empty match instead
    of modelling how the engine steps over one. *)
Fixpoint finditer_from (fuel : nat) (r : regex) (c : cursor) : list Match :=
  match fuel with
  | O => []
  | S fuel' =>
    match search_from r (before c) (after c) with
    | None => []
    | Some m =>
      m :: (if Nat.ltb (m_start m) (m_end m)
            then finditer_from fuel' r (m_stop m)
            else [])
    end
  end.

Definition finditer (r : regex) (s : str) : list Match :=
  finditer_from (S (length s)) r (Cursor [] s).

(** [s[i:j]] *)
Definition slice (s : str) (i j : nat) : str := firstn (j - i) (skipn i s).

(** [m.group(name)]: [None] when the group took no part. *)
Definition group (s : str) (m : Match) (name : string) : option str :=
  match lookup name (m_groups m) with
  | Some (i, j) => Some (slice s i j)
  | None => None
  end.

(** [m.group(name)] for a group that lies on every path through the
    pattern, so that it has a span whenever the pattern matched. *)
Definition text (s : str) (m : Match) (name : string) : str :=
  match group s m name with Some t => t | None => [] end.

(** [re.sub(pattern, repl, s)]: every match replaced by [repl]. *)
Fixpoint sub_from (ms : list Match) (repl : str) (s : str) (at_ : nat)
  : str :=
  match ms with
  | [] => skipn at_ s
  | m :: ms' =>
    slice s at_ (m_start m) ++ repl ++ sub_from ms' repl s (m_end m)
  end.

Definition sub (r : regex) (repl : str) (s : str) : str :=
  sub_from (finditer r s) repl s 0.

(** *** Building blocks *)

Definition one (x : char) : char -> bool := chr_eqb x.
Definition any : char -> bool := fun _ => true.
Definition space : char -> bool := isspace.
Definition nonspace : char -> bool := fun c => negb (isspace c).

(** A literal word. *)
Fixpoint lit (w : str) : regex :=
  match w with
  | [] => Eps
  | x :: w' => Seq (Chr (one x)) (lit w')
  end.

Definition star (cls : char -> bool) : regex := Rep true 0 (Chr cls).
Definition plus (cls : char -> bool) : regex := Rep true 1 (Chr cls).
Definition lazy_star (cls : char -> bool) : regex := Rep false 0 (Chr cls).
Definition lazy_plus (cls : char -> bool) : regex := Rep false 1 (Chr cls).

Fixpoint seq (rs : list regex) : regex :=
  match rs with
  | [] => Eps
  | [r] => r
  | r :: rs' => Seq r (seq rs')
  end.

Definition lparen : char := 40%N.
Definition rparen : char := 41%N.

End Re.

Import Re.

(* ===================================================================== *)
(** ** Exceptions, the global table and the console                       *)
(* ===================================================================== *)

Module Py.

Inductive exn : Type :=
| RuntimeError (msg : str)
| KeyError
| IndexError.

Inductive result (A : Type) : Type :=
| Ok (a : A)
| Raise (e : exn).
Arguments Ok {A} a.
Arguments Raise {A} e.

(** What a call can change: the module-level [kmonad_aliases] and what
    has been printed. *)
Record Store : Type := MkStore {
  kmonad_aliases : PyDict.dict str;
  stdout : list str
}.

Definition M (A : Type) : Type := Store -> result A * Store.

Definition ret {A} (a : A) : M A := fun st => (Ok a, st).

Definition bind {A B} (m : M A) (f : A -> M B) : M B :=
  fun st =>
    match m st with
    | (Ok a, st') => f a st'
    | (Raise e, st') => (Raise e, st')
    end.

Definition raise {A} (e : exn) : M A := fun st => (Raise e, st).

Definition aliases : M (PyDict.dict str) :=
  fun st => (Ok (kmonad_aliases st), st).

Definition set_alias (k v : str) : M unit :=
  fun st =>
    (Ok tt, MkStore (PyDict.set k v (kmonad_aliases st)) (stdout st)).

Definition print (line : str) : M unit :=
  fun st => (Ok tt, MkStore (kmonad_aliases st) (stdout st ++ [line])).

(** An [Ok]/[Raise] value computed without touching the store. *)
Definition lift {A} (r : result A) : M A := fun st => (r, st).

Fixpoint foldM {A X} (f : A -> X -> M A) (xs : list X) (a : A) : M A :=
  match xs with
  | [] => ret a
  | x :: xs' => bind (f a x) (foldM f xs')
  end.

Fixpoint mapM {X Y} (f : X -> M Y) (xs : list X) : M (list Y) :=
  match xs with
  | [] => ret []
  | x :: xs' =>
    bind (f x) (fun y => bind (mapM f xs') (fun ys => ret (y :: ys)))
  end.

(** [enumerate(xs)] *)
Definition enumerate {X} (xs : list X) : list (nat * X) :=
  combine (List.seq 0 (length xs)) xs.

(** [xs[i]] for a non-negative [i]. *)
Definition getitem {X} (xs : list X) (i : nat) : result X :=
  match nth_error xs i with
  | Some x => Ok x
  | None => Raise IndexError
  end.

(** [xs[i]] for any integer [i]: a negative index counts from the end. *)
Definition getitem_int {X} (xs : list X) (i : Z) : result X :=
  let n := Z.of_nat (length xs) in
  if (0 <=? i)%Z then getitem xs (Z.to_nat i)
  else if (0 <=? i + n)%Z then getitem xs (Z.to_nat (i + n))
  else Raise IndexError.

Fixpoint update {X} (xs : list X) (i : nat) (x : X) : list X :=
  match xs, i with
  | [], _ => []
  | _ :: xs', O => x :: xs'
  | y :: xs', S i' => y :: update xs' i' x
  end.

(** [xs[i] = x] for a non-negative [i]. *)
Definition setitem {X} (xs : list X) (i : nat) (x : X) : result (list X) :=
  if Nat.ltb i (length xs) then Ok (update xs i x) else Raise IndexError.

End Py.

Import Py.

Declare Scope py_scope.
Delimit Scope py_scope with py.
Notation "x <- m ;; k" := (bind m (fun x => k))
  (at level 61, m at next level, right associativity) : py_scope.
Notation "m ;;; k" := (bind m (fun _ => k))
  (at level 61, right associativity) : py_scope.
Open Scope py_scope.

(* ===================================================================== *)
(** ** The program                                                        *)
(* ===================================================================== *)

(** *** Translation table for common KMonad aliases (initial contents of
    [kmonad_aliases]) *)

Definition kmonad_aliases0 : PyDict.dict str :=
  map (fun kv => (u (fst kv), u (snd kv)))
  [ ("ret", "Return"); ("return", "Return"); ("ent", "Enter");
    ("min", "-");
    ("eql", "=");
    ("spc", "Space");
    ("pgup", "⤒");
    ("pgdn", "⤓");
    ("ins", "Ins");
    ("del", "Del");
    ("volu", "🕪");
    ("voldwn", "🕩"); ("vold", "🕩");
    ("mute", "🕨");
    ("brup", "🔆"); ("bru", "🔆");
    ("brdown", "🔅"); ("brdwn", "🔅"); ("brdn", "🔅");
    ("lalt", "Alt"); ("alt", "Alt");
    ("ralt", "AltGr");
    ("comp", "Cmp"); ("cmps", "Cmp"); ("cmp", "Cmp");
    ("lshift", "Shift"); ("lshft", "Shift"); ("lsft", "Shift");
    ("shft", "Shift"); ("sft", "Shift"); ("rshift", "Shift");
    ("rshft", "Shift"); ("rsft", "Shift");
    ("lctrl", "Ctrl"); ("lctl", "Ctrl"); ("ctl", "Ctrl");
    ("rctrl", "Ctrl"); ("rctl", "Ctrl");
    ("lmeta", "Meta"); ("lmet", "Meta"); ("met", "Meta");
    ("rmeta", "Meta"); ("rmet", "Meta");
    ("bks", "⌫");
    ("bspc", "⌫");
    ("caps", "🄰 Caps");
    ("fwd", "⏭");
    ("lft", "←");
    ("rght", "→");
    ("lbrc", "[");
    ("rbrc", "]");
    ("scln", ";");
    ("apos", "'");
    ("grv", "`");
    ("bksl", "\\");
    ("comm", ",");
    ("kp/", "/");
    ("kprt", "Enter");
    ("kp+", "+");
    ("kp*", "*");
    ("kp-", "-");
    ("kp.", ".");
    ("ssrq", "SysRq");
    ("sys", "SysRq");
    ("next", " ⏭");
    ("pp", "⏯");
    ("prev", "⏮");
    ("up", "↑");
    ("down", "↓"); ("dn", "↓");
    ("f1", "F1");
    ("f2", "F2");
    ("f3", "F3");
    ("f4", "F4");
    ("f5", "F5");
    ("f6", "F6");
    ("f7", "F7");
    ("f8", "F8");
    ("f9", "F9");
    ("f10", "F10");
    ("f11", "F11");
    ("f12", "F12") ]%string.

(** *** Matrix position to label position (keyboard-layout-editor)
<<
      | 0    8    2  |
      | 6    9    7  |
      | 1   10    3  |
      | 4   11    5  |
>> *)

Definition label_pos_table : list ((nat * nat) * nat) :=
  [ ((0,0), 0);   ((0,1), 8);   ((0,2), 2);
    ((1,0), 6);   ((1,1), 9);   ((1,2), 7);
    ((2,0), 1);   ((2,1), 10);  ((2,2), 3);
    ((3,0), 4);   ((3,1), 11);  ((3,2), 5) ].

(** [label_pos[(r, c)]]: a [KeyError] outside the table. *)
Definition label_pos (r c : nat) : result nat :=
  match find (fun e => Nat.eqb (fst (fst e)) r && Nat.eqb (snd (fst e)) c)
             label_pos_table with
  | Some e => Ok (snd e)
  | None => Raise KeyError
  end.

(** *** Custom options per keycap: [(options alias {...})] *)

Module Options.

Definition lbrace : char := 123%N.
Definition rbrace : char := 125%N.

Definition Pattern : regex :=
  seq [ Chr (one lparen);
        star space;
        lit (u "options");
        plus space;
        Group "name" (plus (fun c => negb (isspace c || chr_eqb c rparen)));
        plus space;
        Group "data" (seq [Chr (one lbrace); lazy_plus any;
                           Chr (one rbrace)]);
        Chr (one rparen) ].

(** [__init__]: the index. *)
Definition init (data : str) : PyDict.dict str :=
  fold_left (fun index m => PyDict.set (text data m "name")
                                       (text data m "data") index)
            (finditer Pattern data) [].

(** [__call__] *)
Definition call (index : PyDict.dict str) (name : str) : option str :=
  PyDict.get name index.

End Options.

(** *** Global keycap layout: [(keycap ...)] and [(colors ...)] *)

Record KeyCap : Type := MkKeyCap {
  rows : list (list str);
  layermap : PyDict.dict nat;
  colormap : PyDict.dict str
}.

Module KeyCapRe.

Definition Pattern : regex :=
  seq [ Chr (one lparen);
        star space;
        lit (u "keycap");
        plus space;
        Group "data" (lazy_plus any);
        NotBehind (one backslash);
        Chr (one rparen) ].

(** [[#a-fA-F0-9\s]] *)
Definition color_char (c : char) : bool :=
  chr_eqb c 35%N || in_range 97 102 c || in_range 65 70 c
  || in_range 48 57 c || isspace c.

Definition Colors : regex :=
  seq [ Chr (one lparen);
        star space;
        lit (u "colors");
        plus space;
        Group "data" (lazy_plus color_char);
        Chr (one rparen) ].

End KeyCapRe.

Definition msg_keycap_missing : str :=
  u "Keycap definition not found. ie (keycap ...)".

Definition msg_keycap_shape : str :=
  u "Invalid keycap definition. Mandatory format for (keycap ...): 4 rows of 3 columns, empty places marked with '_'".

Definition msg_colors_shape : str :=
  u "Invalid keycap colors definition. Mandatory format for (colors ...): 4 rows of 3 columns if html hex color codes. ie. colors(#000000 ...)".

Definition msg_colors_warning : str :=
  u "[Warning] Invalid colors definition (colors ...). Fallback to all black.".

Definition black : str := u "#000000".

Definition default_colors : list (list str) :=
  [ [black; black; black];
    [black; black; black];
    [black; black; black];
    [black; black; black] ].

Definition underscore : str := u "_".

(** [len(g) != 4 or not all(len(r) == 3 for r in g)] *)
Definition bad_shape (g : list (list str)) : bool :=
  negb (Nat.eqb (length g) 4)
  || negb (forallb (fun r => Nat.eqb (length r) 3) g).

(** The grid of a declaration body: one row per line, one cell per
    word. *)
Definition grid_of (body : str) : list (list str) :=
  map split (splitlines body).

(** [KeyCap.__init__], the keycap declaration. *)
Definition keycap_rows (data : str) : M (list (list str)) :=
  match search KeyCapRe.Pattern data with
  | None => raise (RuntimeError msg_keycap_missing)
  | Some m =>
    let rows := grid_of (text data m "data") in
    if bad_shape rows then raise (RuntimeError msg_keycap_shape)
    else ret rows
  end.

(** [KeyCap.__init__], the colors declaration. *)
Definition keycap_colors (data : str) : M (list (list str)) :=
  match search KeyCapRe.Colors data with
  | Some m =>
    let colors := grid_of (text data m "data") in
    if bad_shape colors then raise (RuntimeError msg_colors_shape)
    else ret colors
  | None =>
    print msg_colors_warning ;;;
    ret default_colors
  end.

(** [KeyCap.__init__], one cell of the two loops. *)
Definition keycap_cell (colors : list (list str)) (r : nat)
           (maps : PyDict.dict nat * PyDict.dict str) (cc : nat * str)
  : result (PyDict.dict nat * PyDict.dict str) :=
  let '(c, col) := cc in
  if negb (PyStr.eqb col underscore) then
    match label_pos r c with
    | Raise e => Raise e
    | Ok p =>
      match getitem colors r with
      | Raise e => Raise e
      | Ok crow =>
        match getitem crow c with
        | Raise e => Raise e
        | Ok color =>
          Ok (PyDict.set col p (fst maps), PyDict.set col color (snd maps))
        end
      end
    end
  else Ok maps.

Fixpoint fold_result {A X} (f : A -> X -> result A) (xs : list X) (a : A)
  : result A :=
  match xs with
  | [] => Ok a
  | x :: xs' =>
    match f a x with
    | Ok a' => fold_result f xs' a'
    | Raise e => Raise e
    end
  end.

(** [KeyCap.__init__], the two maps. *)
Definition keycap_maps (rows colors : list (list str))
  : result (PyDict.dict nat * PyDict.dict str) :=
  fold_result
    (fun maps rr =>
       fold_result (keycap_cell colors (fst rr)) (enumerate (snd rr)) maps)
    (enumerate rows) ([], []).

Definition KeyCap_init (data : str) : M KeyCap :=
  rows <- keycap_rows data ;;
  colors <- keycap_colors data ;;
  maps <- lift (keycap_maps rows colors) ;;
  ret (MkKeyCap rows (fst maps) (snd maps)).

(** *** [KeyCap] methods that do not translate *)

(** The twelve label lines of a key. *)
Definition empty_lab : list str :=
  [ []; []; []; []; []; []; []; []; []; []; []; [] ].

(** [(\\n)+$] *)
Definition trailing_newlines : regex :=
  Seq (Rep true 1 (lit (u "\n"))) Eos.

Definition quoted (content : str) : str := [dquote] ++ content ++ [dquote].

(** [KeyCap.get_colors] *)
Definition get_colors (self : KeyCap) : result str :=
  match
    fold_result
      (fun lab item =>
         setitem lab (snd item)
                 (PyDict.get_default (fst item) [] (colormap self)))
      (layermap self) empty_lab
  with
  | Raise e => Raise e
  | Ok lab =>
    let content := rstrip (u "\n") (join (u "\n") lab) in
    Ok (quoted content)
  end.

(** *** Hardware layout: [<hardware-layout> ... </hardware-layout>] *)

Record HardwareLayout : Type := MkHardwareLayout {
  keycap : KeyCap;
  options : PyDict.dict str;
  description : str
}.

Module HardwareRe.

Definition Pattern : regex :=
  seq [ lit (u "<hardware-layout>");
        Group "data" (lazy_plus any);
        lit (u "</hardware-layout>") ].

Definition Label : regex :=
  seq [ Chr (one lparen);
        star space;
        lit (u "label");
        plus space;
        Group "name" (plus (fun c => negb (isspace c || chr_eqb c rparen)));
        plus space;
        Group "data" (lazy_plus any);
        Chr (one rparen) ].

Definition Description : regex :=
  seq [ Chr (one lparen);
        star space;
        lit (u "description");
        plus space;
        Group "description" (lazy_star any);
        NotBehind (one backslash);
        Chr (one rparen) ].

End HardwareRe.

Definition msg_hardware_missing : str :=
  u "Hardware layout section ot found. ie. <hardware-layout>...</hardware-layout>".

(** [HardwareLayout.import_labels] *)
Definition import_labels (data : str) : M unit :=
  foldM (fun _ m => set_alias (text data m "name") (text data m "data"))
        (finditer HardwareRe.Label data) tt.

(** [HardwareLayout.get_description] *)
Definition get_description (data : str) : str :=
  match search HardwareRe.Description data with
  | Some m => replace newline (u "<br />") (text data m "description")
  | None => []
  end.

Definition HardwareLayout_init (data : str) : M HardwareLayout :=
  match search HardwareRe.Pattern data with
  | None => raise (RuntimeError msg_hardware_missing)
  | Some m =>
    let data := text data m "data" in
    keycap <- KeyCap_init data ;;
    let options := Options.init data in
    let description := get_description data in
    import_labels data ;;;
    ret (MkHardwareLayout keycap options description)
  end.

(** *** KMonad layer *)

Record KMonadLayer : Type := MkKMonadLayer {
  layer_name : str;
  layer_rows : list (list str)
}.

(** [KMonadLayer.__init__]; [name] is [None] for the [defsrc] section. *)
Definition KMonadLayer_init (name : option str) (data : str) : KMonadLayer :=
  MkKMonadLayer
    (match name with
     | None | Some [] => u "defsrc"
     | Some name => name
     end)
    (grid_of data).

(** [KMonadLayer.__call__]: whatever the two subscripts raise is caught. *)
Definition KMonadLayer_call (self : KMonadLayer) (row col : Z) : option str :=
  match getitem_int (layer_rows self) row with
  | Raise _ => None
  | Ok r =>
    match getitem_int r col with
    | Raise _ => None
    | Ok v => if PyStr.eqb v underscore then None else Some v
    end
  end.

(** *** KMonad file compiler *)

Record KMonadConfig : Type := MkKMonadConfig {
  layers : PyDict.dict KMonadLayer;
  first : option str;
  hardware : HardwareLayout;
  name : str;
  layout : option str   (* [None] until [__init__] has assigned it *)
}.

Module ConfigRe.

Definition LayoutSection : regex :=
  seq [ Chr (one lparen);
        star space;
        Alt (Group "src" (lit (u "defsrc")))
            (seq [ lit (u "deflayer"); plus space;
                   Group "layer" (plus nonspace) ]);
        plus space;
        Group "data" (lazy_plus any);
        NotBehind (one backslash);
        Chr (one rparen) ].

End ConfigRe.

(** An element of a row under construction: an options fragment or a
    key. *)
Inductive entry : Type :=
| Fragment (opt : str)
| Key (r c : nat) (k : str).

(** *** Translation and rendering

    [str.isalpha] and [str.upper] are fixed here on ASCII; what they do
    on the other code points is a parameter of the development. *)

Section Program.

Variable isalpha_beyond_ascii : char -> bool.
Variable upper_beyond_ascii : char -> str.

Definition isalpha_char (c : char) : bool :=
  if N.ltb c 128 then is_ascii_upper c || is_ascii_lower c
  else isalpha_beyond_ascii c.

Definition upper_char (c : char) : str :=
  if N.ltb c 128 then (if is_ascii_lower c then [(c - 32)%N] else [c])
  else upper_beyond_ascii c.

(** [key.isalpha()]: at least one character, all of them alphabetic. *)
Definition isalpha (key : str) : bool :=
  match key with
  | [] => false
  | _ => forallb isalpha_char key
  end.

(** [key.upper()] *)
Definition upper (key : str) : str := flat_map upper_char key.

(** [KeyCap.translate] *)
Definition translate (key : str) : M str :=
  tbl <- aliases ;;
  let key := PyDict.get_default key key tbl in
  if Nat.eqb (length key) 1 && isalpha key then ret (upper key)
  else
    let key := if PyStr.eqb key (u "XX") then [] else key in
    ret key.

(** [KeyCap.label], the body of the loop.  A value of [keys] is [None]
    where the layer binds nothing. *)
Definition label_step (self : KeyCap) (lab : list str)
           (item : str * option str) : M (list str) :=
  let '(layer, key) := item in
  match key with
  | None | Some [] => ret lab
  | Some key =>
    let p := PyDict.get layer (layermap self) in
    key <- translate key ;;
    match p with
    | Some p =>
      if PyStr.eqb key (u "\\") || PyStr.eqb key (backslash :: [dquote])
      then lift (setitem lab p key)
      else lift (setitem lab p (replace backslash [] key))
    | None => ret lab
    end
  end.

(** [KeyCap.label] *)
Definition label (self : KeyCap) (keys : PyDict.dict (option str)) : M str :=
  lab <- foldM (label_step self) keys empty_lab ;;
  let content := sub trailing_newlines [] (join (u "\n") lab) in
  ret (quoted content).

(** [KMonadConfig.keycap] *)
Definition KMonadConfig_keycap (layers : PyDict.dict KMonadLayer)
           (hardware : HardwareLayout) (row col : nat) (key : str) : M str :=
  let labels :=
    fold_left
      (fun labels layer =>
         PyDict.set (layer_name layer)
                    (KMonadLayer_call layer (Z.of_nat row) (Z.of_nat col))
                    labels)
      (PyDict.values layers) [] in
  label (keycap hardware) labels.

(** [KMonadConfig.build] on the attributes it reads. *)
Definition build (layers : PyDict.dict KMonadLayer)
           (hardware : HardwareLayout) (name : str) : M str :=
  match PyDict.get (u "defsrc") layers with
  | None => raise KeyError
  | Some defsrc =>
    let hw := layer_rows defsrc in
    let nrows :=
      map (fun rr =>
             flat_map (fun ck =>
                         match Options.call (options hardware) (snd ck) with
                         | Some ((_ :: _) as opt) =>
                           [Fragment opt; Key (fst rr) (fst ck) (snd ck)]
                         | _ => [Key (fst rr) (fst ck) (snd ck)]
                         end)
                      (enumerate (snd rr)))
          (enumerate hw) in
    colors <- lift (get_colors (keycap hardware)) ;;
    let head := u "[{a:0, y:-1, t:" ++ colors ++ u "}]" in
    body <- mapM (fun r =>
               row <- mapM (fun k =>
                        match k with
                        | Fragment opt => ret opt
                        | Key r c k => KMonadConfig_keycap layers hardware r c k
                        end) r ;;
               ret (u "[" ++ join (u ",") row ++ u "]")) nrows ;;
    let foot :=
      u "[{f:4,w:20,h:3,d:true,t:" ++ quoted (u "#333333") ++ u "},"
        ++ quoted (name ++ u "<br /><br />" ++ description hardware)
        ++ u "]" in
    ret (join (u "," ++ [newline]) ([head] ++ body ++ [foot]))
  end.

(** [KMonadConfig.__init__] once the file has been read: [name] is the
    absolute path of the file and [text] what it holds. *)
Definition KMonadConfig_init (name text : str) : M KMonadConfig :=
  let '(layers, first) :=
    fold_left
      (fun '(layers, first) sec =>
         let layer := KMonadLayer_init (group text sec "layer")
                                       (Re.text text sec "data") in
         (PyDict.set (layer_name layer) layer layers,
          match first, group text sec "layer" with
          | None, Some ((_ :: _) as l) => Some l
          | _, _ => first
          end))
      (finditer ConfigRe.LayoutSection text) ([], None) in
  hardware <- HardwareLayout_init text ;;
  layout <- build layers hardware name ;;
  ret (MkKMonadConfig layers first hardware name (Some layout)).

End Program.

(* ===================================================================== *)
(** ** Properties                                                         *)
(* ===================================================================== *)

(** *** Layer model: [KMonadLayer.__call__] *)

Lemma getitem_int_nonneg {X} (xs : list X) (i : Z) :
  (0 <= i)%Z -> getitem_int xs i = getitem xs (Z.to_nat i).
Proof.
  intros Hi. unfold getitem_int.
  destruct (Z.leb_spec 0 i); [reflexivity | lia].
Qed.

Lemma getitem_int_negative {X} (xs : list X) (i : Z) :
  (i < 0)%Z ->
  getitem_int xs i =
  if (0 <=? i + Z.of_nat (length xs))%Z
  then getitem_int xs (i + Z.of_nat (length xs))
  else Raise IndexError.
Proof.
  intros Hi. unfold getitem_int at 1.
  destruct (Z.leb_spec 0 i); [lia|].
  destruct (Z.leb_spec 0 (i + Z.of_nat (length xs))); [|reflexivity].
  now rewrite getitem_int_nonneg.
Qed.

Lemma getitem_beyond {X} (xs : list X) (i : nat) :
  length xs <= i -> getitem xs i = Raise IndexError.
Proof.
  intros Hi. unfold getitem.
  now rewrite (proj2 (nth_error_None xs i) Hi).
Qed.

(** C6.  [tokenAt(row, col)] is [KMonadLayer.__call__].  For a position
    inside the matrix it answers with the token stored there, or with
    nothing when that token is the empty marker; for a row past the last
    row, or a column past the end of its row, it answers with nothing.
    It answers for every pair of integers: its result is an optional
    token and carries no exception, although both subscripts can raise.
    A negative index is read the way the language reads it, from the
    end, and answers with nothing when it reaches before the start. *)
Theorem KMonadLayer_call_spec (L : KMonadLayer) (row col : Z) :
  (forall r v,
      (0 <= row)%Z -> (0 <= col)%Z ->
      nth_error (layer_rows L) (Z.to_nat row) = Some r ->
      nth_error r (Z.to_nat col) = Some v ->
      KMonadLayer_call L row col
      = if PyStr.eqb v underscore then None else Some v)
  /\ ((Z.of_nat (length (layer_rows L)) <= row)%Z ->
      KMonadLayer_call L row col = None)
  /\ (forall r,
      (0 <= row)%Z ->
      nth_error (layer_rows L) (Z.to_nat row) = Some r ->
      (Z.of_nat (length r) <= col)%Z ->
      KMonadLayer_call L row col = None)
  /\ ((row < 0)%Z ->
      KMonadLayer_call L row col
      = if (0 <=? row + Z.of_nat (length (layer_rows L)))%Z
        then KMonadLayer_call L (row + Z.of_nat (length (layer_rows L))) col
        else None)
  /\ (forall r,
      (0 <= row)%Z ->
      nth_error (layer_rows L) (Z.to_nat row) = Some r ->
      (col < 0)%Z ->
      KMonadLayer_call L row col
      = if (0 <=? col + Z.of_nat (length r))%Z
        then KMonadLayer_call L row (col + Z.of_nat (length r))
        else None).
Proof.
  unfold KMonadLayer_call. repeat split.
  - intros r v Hr Hc Er Ev.
    rewrite (getitem_int_nonneg _ Hr). unfold getitem at 1. rewrite Er.
    rewrite (getitem_int_nonneg _ Hc). unfold getitem. now rewrite Ev.
  - intros Hr.
    rewrite getitem_int_nonneg by lia. now rewrite getitem_beyond by lia.
  - intros r Hr Er Hc.
    rewrite (getitem_int_nonneg _ Hr). unfold getitem at 1. rewrite Er.
    rewrite getitem_int_nonneg by lia. now rewrite getitem_beyond by lia.
  - intros Hr. rewrite (getitem_int_negative _ Hr).
    now destruct (0 <=? row + Z.of_nat (length (layer_rows L)))%Z.
  - intros r Hr Er Hc.
    rewrite (getitem_int_nonneg _ Hr). unfold getitem at 1 2. rewrite Er.
    rewrite (getitem_int_negative _ Hc).
    now destruct (0 <=? col + Z.of_nat (length r))%Z.
Qed.

(** A layer of one row read at the positions of a taller base layer. *)
Example KMonadLayer_call_examples :
  let nav := KMonadLayer_init (Some (u "nav")) (u "F1 _ F3") in
  KMonadLayer_call nav 0 0 = Some (u "F1")
  /\ KMonadLayer_call nav 0 1 = None
  /\ KMonadLayer_call nav 0 3 = None
  /\ KMonadLayer_call nav 1 0 = None
  /\ KMonadLayer_call nav (-1) (-1) = Some (u "F3")
  /\ KMonadLayer_call nav (-2) 0 = None.
Proof. vm_compute. repeat split. Qed.

(** *** Alias table: [KeyCap.translate] *)

Section Translate.

Variable isalpha_beyond_ascii : char -> bool.
Variable upper_beyond_ascii : char -> str.

Local Abbreviation isalpha' := (isalpha isalpha_beyond_ascii).
Local Abbreviation upper' := (upper upper_beyond_ascii).
Local Abbreviation translate' :=
  (translate isalpha_beyond_ascii upper_beyond_ascii).

(** The rules for a token that has no alias entry: a single letter is
    upper-cased, [XX] becomes empty, anything else stays. *)
Definition plain_rules (key : str) : str :=
  if Nat.eqb (length key) 1 && isalpha' key then upper' key
  else if PyStr.eqb key (u "XX") then [] else key.

(** The contract as the specification words it: an alias entry is
    substituted and is the result; only a token without one goes on to
    the other rules. *)
Definition translate_spec (tbl : PyDict.dict str) (token : str) : str :=
  match PyDict.get token tbl with
  | Some entry => entry
  | None => plain_rules token
  end.

Lemma translate_eq (key : str) (st : Store) :
  translate' key st
  = (Ok (plain_rules (PyDict.get_default key key (kmonad_aliases st))), st).
Proof.
  unfold translate, bind, aliases, ret, plain_rules. simpl.
  destruct (_ && _); reflexivity.
Qed.

(** The single-character values of the initial table. *)
Definition glyphs : list char :=
  flat_map (fun v => match v with [c] => [c] | _ => [] end)
           (PyDict.values kmonad_aliases0).

(** No value of the initial table is rewritten by the plain rules, as
    long as its pictographs and arrows are not letters. *)
Lemma plain_rules_initial (key entry : str) :
  (forall c, In c glyphs -> (128 <= c)%N -> isalpha_beyond_ascii c = false) ->
  PyDict.get key kmonad_aliases0 = Some entry ->
  plain_rules entry = entry.
Proof.
  intros Hsym Hget. apply PyDict.get_In in Hget.
  assert (Hv : In entry (PyDict.values kmonad_aliases0))
    by (apply (in_map snd) in Hget; exact Hget).
  clear Hget. unfold plain_rules.
  assert (Hxx : PyStr.eqb entry (u "XX") = false).
  { assert (H : forallb (fun v => negb (PyStr.eqb v (u "XX")))
                        (PyDict.values kmonad_aliases0) = true)
      by (vm_compute; reflexivity).
    rewrite forallb_forall in H. specialize (H _ Hv).
    now destruct (PyStr.eqb entry (u "XX")). }
  rewrite Hxx.
  destruct entry as [|c [|d rest]]; simpl; try reflexivity.
  assert (Hg : In c glyphs).
  { unfold glyphs. apply in_flat_map. exists [c]. split; [exact Hv | now left]. }
  assert (Hc : N.leb 128 c
               || negb (is_ascii_upper c || is_ascii_lower c) = true).
  { assert (H : forallb (fun c => N.leb 128 c
                  || negb (is_ascii_upper c || is_ascii_lower c)) glyphs
                = true)
      by (vm_compute; reflexivity).
    rewrite forallb_forall in H. now apply H. }
  unfold isalpha, isalpha_char.
  destruct (N.ltb_spec c 128) as [Hlt|Hge].
  - apply orb_true_iff in Hc. destruct Hc as [Hc|Hc].
    + apply N.leb_le in Hc. lia.
    + apply negb_true_iff in Hc. now rewrite Hc.
  - now rewrite (Hsym c Hg Hge).
Qed.

(** C3, as amended.  [translate] answers for every token and leaves the
    table as it was.  A token without an alias entry follows the plain
    rules in order: one letter is upper-cased, [XX] gives the empty
    text, anything else is returned unchanged.  A token with an alias
    entry is replaced by the entry and the same rules are then applied
    to the entry.  With the initial table, whose entries none of the
    rules rewrites, the result for an aliased token is the entry itself,
    and [translate("a") == "A"], [translate("XX") == ""],
    [translate("unmappedtoken") == "unmappedtoken"]. *)
Theorem translate_rules (key : str) (st : Store) :
  (exists v, translate' key st = (Ok v, st))
  /\ (PyDict.get key (kmonad_aliases st) = None ->
      translate' key st = (Ok (plain_rules key), st))
  /\ (forall entry,
      PyDict.get key (kmonad_aliases st) = Some entry ->
      translate' key st = (Ok (plain_rules entry), st))
  /\ ((forall c, In c glyphs -> (128 <= c)%N ->
                 isalpha_beyond_ascii c = false) ->
      kmonad_aliases st = kmonad_aliases0 ->
      translate' key st = (Ok (translate_spec kmonad_aliases0 key), st))
  /\ (kmonad_aliases st = kmonad_aliases0 ->
      translate' (u "a") st = (Ok (u "A"), st)
      /\ translate' (u "XX") st = (Ok [], st)
      /\ translate' (u "unmappedtoken") st = (Ok (u "unmappedtoken"), st)).
Proof.
  repeat split.
  - eexists. apply translate_eq.
  - intros Hnone. rewrite translate_eq.
    unfold PyDict.get_default. now rewrite Hnone.
  - intros entry Hsome. rewrite translate_eq.
    unfold PyDict.get_default. now rewrite Hsome.
  - intros Hsym Htbl. rewrite translate_eq, Htbl.
    unfold PyDict.get_default, translate_spec.
    destruct (PyDict.get key kmonad_aliases0) as [entry|] eqn:E;
      [|reflexivity].
    now rewrite (plain_rules_initial key Hsym E).
  - rewrite translate_eq, H. reflexivity.
  - rewrite translate_eq, H. reflexivity.
  - rewrite translate_eq, H. reflexivity.
Qed.

End Translate.

(** The instance used to run examples: nothing beyond ASCII counts as a
    letter and upper-casing leaves such characters alone. *)
Definition ascii_letters_only : char -> bool := fun _ => false.
Definition ascii_upper_only : char -> str := fun c => [c].

(** The table after [(label foo x)] has been imported. *)
Definition store_with_foo : Store :=
  MkStore (PyDict.set (u "foo") (u "x") kmonad_aliases0) [].

(** C3, as stated, fails: the entry substituted for an aliased token is
    not returned as it is but goes through the remaining rules.  With
    [foo] aliased to [x] the result is [X], not the entry. *)
Lemma translate_alias_not_returned :
  fst (translate ascii_letters_only ascii_upper_only (u "foo") store_with_foo)
  = Ok (u "X")
  /\ translate_spec ascii_letters_only ascii_upper_only
       (kmonad_aliases store_with_foo) (u "foo") = u "x"
  /\ fst (translate ascii_letters_only ascii_upper_only (u "foo")
            store_with_foo)
     <> Ok (translate_spec ascii_letters_only ascii_upper_only
              (kmonad_aliases store_with_foo) (u "foo")).
Proof. vm_compute. repeat split. discriminate. Qed.

(** *** Keycap model: the grids *)

(** A grid that passes the shape test is four rows of three cells. *)
Lemma shape_4x3 (g : list (list str)) :
  bad_shape g = false ->
  exists a0 a1 a2 b0 b1 b2 c0 c1 c2 d0 d1 d2,
    g = [ [a0; a1; a2]; [b0; b1; b2]; [c0; c1; c2]; [d0; d1; d2] ].
Proof.
  unfold bad_shape. intros H. apply orb_false_iff in H as [Hn Hr].
  apply negb_false_iff in Hn, Hr. apply Nat.eqb_eq in Hn.
  destruct g as [|ra [|rb [|rc [|rd [|? ?]]]]]; try discriminate.
  simpl in Hr. repeat (apply andb_true_iff in Hr as [? Hr]).
  repeat match goal with
         | H : Nat.eqb (length ?r) 3 = true |- _ =>
           apply Nat.eqb_eq in H;
           destruct r as [|? [|? [|? [|? ?]]]]; try discriminate; clear H
         end.
  repeat eexists.
Qed.

Lemma shape_4x3_ok (a0 a1 a2 b0 b1 b2 c0 c1 c2 d0 d1 d2 : str) :
  bad_shape [ [a0; a1; a2]; [b0; b1; b2]; [c0; c1; c2]; [d0; d1; d2] ]
  = false.
Proof. reflexivity. Qed.

(** The cells of a grid in the order the two loops visit them: row by
    row, left to right. *)
Definition cells (g : list (list str)) : list (nat * nat * str) :=
  flat_map (fun rr =>
              map (fun cc => (fst rr, fst cc, snd cc)) (enumerate (snd rr)))
           (enumerate g).

(** What one visit does to the two maps once the slot and the colour of
    the cell are known. *)
Definition put (col : str) (p : nat) (color : str)
           (maps : PyDict.dict nat * PyDict.dict str)
  : PyDict.dict nat * PyDict.dict str :=
  if negb (PyStr.eqb col underscore)
  then (PyDict.set col p (fst maps), PyDict.set col color (snd maps))
  else maps.

Definition place_all (l : list (str * nat * str))
           (maps : PyDict.dict nat * PyDict.dict str) :=
  fold_left (fun m e => put (fst (fst e)) (snd (fst e)) (snd e) m) l maps.

Lemma keycap_cell_ok colors r c col maps p crow color :
  label_pos r c = Ok p ->
  getitem colors r = Ok crow ->
  getitem crow c = Ok color ->
  keycap_cell colors r maps (c, col) = Ok (put col p color maps).
Proof.
  intros Hp Hr Hc. unfold keycap_cell, put. rewrite Hp, Hr, Hc.
  now destruct (negb (PyStr.eqb col underscore)).
Qed.

(** On well-shaped grids neither [label_pos] nor the colour subscripts
    raise, and the loops amount to twelve visits. *)
Lemma keycap_maps_4x3
      (a0 a1 a2 b0 b1 b2 c0 c1 c2 d0 d1 d2 : str)
      (x0 x1 x2 y0 y1 y2 z0 z1 z2 w0 w1 w2 : str) :
  keycap_maps
    [ [a0; a1; a2]; [b0; b1; b2]; [c0; c1; c2]; [d0; d1; d2] ]
    [ [x0; x1; x2]; [y0; y1; y2]; [z0; z1; z2]; [w0; w1; w2] ]
  = Ok (place_all
          [ (a0, 0, x0); (a1, 8, x1); (a2, 2, x2);
            (b0, 6, y0); (b1, 9, y1); (b2, 7, y2);
            (c0, 1, z0); (c1, 10, z1); (c2, 3, z2);
            (d0, 4, w0); (d1, 11, w1); (d2, 5, w2) ]
          ([], [])).
Proof.
  unfold keycap_maps, enumerate, place_all.
  cbn [length List.seq combine fold_result fst snd fold_left].
  repeat (erewrite keycap_cell_ok by reflexivity;
          cbn [fold_result fst snd]).
  reflexivity.
Qed.

Lemma find_app {X} (p : X -> bool) (l1 l2 : list X) :
  find p (l1 ++ l2)
  = match find p l1 with Some x => Some x | None => find p l2 end.
Proof.
  induction l1 as [|x l1 IH]; simpl; [reflexivity|].
  now destruct (p x).
Qed.

Lemma find_none_iff {X} (p : X -> bool) (l : list X) :
  (forall x, In x l -> p x = false) -> find p l = None.
Proof.
  induction l as [|x l IH]; simpl; intros H; [reflexivity|].
  rewrite (H x) by now left. apply IH. intros y Hy. apply H. now right.
Qed.

Definition tok_is (t : str) (e : str * nat * str) : bool :=
  PyStr.eqb (fst (fst e)) t.

Lemma put_get (t col : str) (p : nat) (color : str) maps :
  t <> underscore ->
  PyDict.get t (fst (put col p color maps))
  = (if PyStr.eqb col t then Some p else PyDict.get t (fst maps))
  /\ PyDict.get t (snd (put col p color maps))
     = (if PyStr.eqb col t then Some color else PyDict.get t (snd maps)).
Proof.
  intros Ht. unfold put.
  destruct (PyStr.eqb_spec col underscore) as [->|Hcol]; cbn [negb fst snd].
  - apply not_eq_sym, PyStr.eqb_neq in Ht. now rewrite Ht.
  - destruct (PyStr.eqb_spec col t) as [->|Hne].
    + now rewrite !PyDict.get_set_same.
    + rewrite !PyDict.get_set_other by congruence. now split.
Qed.

(** After the visits, a token other than the empty marker is mapped to
    what its last visit recorded. *)
Lemma place_all_get (t : str) (l : list (str * nat * str)) maps :
  t <> underscore ->
  PyDict.get t (fst (place_all l maps))
  = match find (tok_is t) (rev l) with
    | Some e => Some (snd (fst e))
    | None => PyDict.get t (fst maps)
    end
  /\ PyDict.get t (snd (place_all l maps))
     = match find (tok_is t) (rev l) with
       | Some e => Some (snd e)
       | None => PyDict.get t (snd maps)
       end.
Proof.
  intros Ht. induction l as [|e l IH] using rev_ind; [now split|].
  unfold place_all in *. rewrite fold_left_app, rev_app_distr. simpl.
  destruct (put_get (fst (fst e)) (snd (fst e)) (snd e)
                    (fold_left
                       (fun m e0 => put (fst (fst e0)) (snd (fst e0))
                                        (snd e0) m) l maps) Ht)
    as [H1 H2].
  rewrite H1, H2. unfold tok_is at 1 3.
  destruct (PyStr.eqb (fst (fst e)) t); [now split | exact IH].
Qed.

(** The empty marker never becomes a key. *)
Lemma place_all_underscore (l : list (str * nat * str)) maps :
  PyDict.get underscore (fst (place_all l maps))
  = PyDict.get underscore (fst maps).
Proof.
  revert maps. induction l as [|e l IH]; intros maps; [reflexivity|].
  unfold place_all in *. simpl. rewrite IH. unfold put.
  destruct (PyStr.eqb_spec (fst (fst e)) underscore) as [E|E]; simpl;
    [reflexivity|].
  apply PyDict.get_set_other. congruence.
Qed.

(** The slot and the colour of a cell of well-shaped grids. *)
Definition slot_of (r c : nat) : nat :=
  match label_pos r c with Ok p => p | Raise _ => 0 end.

Definition color_at (colors : list (list str)) (r c : nat) : str :=
  nth c (nth r colors []) [].

Definition placements (g colors : list (list str))
  : list (str * nat * str) :=
  map (fun x => (snd x, slot_of (fst (fst x)) (snd (fst x)),
                 color_at colors (fst (fst x)) (snd (fst x))))
      (cells g).

Lemma keycap_maps_ok (g colors : list (list str)) :
  bad_shape g = false -> bad_shape colors = false ->
  keycap_maps g colors = Ok (place_all (placements g colors) ([], [])).
Proof.
  intros Hg Hc.
  destruct (shape_4x3 g Hg)
    as (a0 & a1 & a2 & b0 & b1 & b2 & c0 & c1 & c2 & d0 & d1 & d2 & ->).
  destruct (shape_4x3 colors Hc)
    as (x0 & x1 & x2 & y0 & y1 & y2 & z0 & z1 & z2 & w0 & w1 & w2 & ->).
  apply keycap_maps_4x3.
Qed.

(** The positions of a well-shaped grid, in visiting order. *)
Definition positions : list (nat * nat) :=
  [ (0,0); (0,1); (0,2); (1,0); (1,1); (1,2);
    (2,0); (2,1); (2,2); (3,0); (3,1); (3,2) ].

Lemma cells_positions (g : list (list str)) :
  bad_shape g = false -> map fst (cells g) = positions.
Proof.
  intros Hg.
  destruct (shape_4x3 g Hg)
    as (a0 & a1 & a2 & b0 & b1 & b2 & c0 & c1 & c2 & d0 & d1 & d2 & ->).
  reflexivity.
Qed.

(** Position Map: on the twelve positions [label_pos] is defined, stays
    below twelve and never gives one slot twice. *)
Lemma label_pos_total (r c : nat) :
  In (r, c) positions ->
  label_pos r c = Ok (slot_of r c) /\ slot_of r c < 12.
Proof.
  unfold positions. simpl. intros H.
  repeat (destruct H as [H|H]; [injection H as <- <-; split;
                                [reflexivity | vm_compute; lia]|]).
  contradiction.
Qed.

Lemma label_pos_injective (r c r' c' : nat) :
  In (r, c) positions -> In (r', c') positions ->
  slot_of r c = slot_of r' c' -> (r, c) = (r', c').
Proof.
  unfold positions. simpl. intros H H'.
  repeat (destruct H as [H|H]; [injection H as <- <-|]);
    try contradiction;
    repeat (destruct H' as [H'|H']; [injection H' as <- <-|]);
    try contradiction;
    vm_compute; intros E; try reflexivity; discriminate.
Qed.

(** *** Keycap model: construction *)

Definition warned (st : Store) : Store :=
  MkStore (kmonad_aliases st) (stdout st ++ [msg_colors_warning]).

(** The body of a declaration found by [search]. *)
Definition declared (r : regex) (data : str) : option (list (list str)) :=
  match search r data with
  | Some m => Some (grid_of (text data m "data"))
  | None => None
  end.

Lemma keycap_rows_eq (data : str) (st : Store) :
  keycap_rows data st
  = match declared KeyCapRe.Pattern data with
    | None => (Raise (RuntimeError msg_keycap_missing), st)
    | Some g => if bad_shape g
                then (Raise (RuntimeError msg_keycap_shape), st)
                else (Ok g, st)
    end.
Proof.
  unfold keycap_rows, declared.
  destruct (search KeyCapRe.Pattern data); [|reflexivity].
  now destruct (bad_shape _).
Qed.

Lemma keycap_colors_eq (data : str) (st : Store) :
  keycap_colors data st
  = match declared KeyCapRe.Colors data with
    | None => (Ok default_colors, warned st)
    | Some g => if bad_shape g
                then (Raise (RuntimeError msg_colors_shape), st)
                else (Ok g, st)
    end.
Proof.
  unfold keycap_colors, declared.
  destruct (search KeyCapRe.Colors data); [|reflexivity].
  now destruct (bad_shape _).
Qed.

Lemma KeyCap_init_eq (data : str) (st : Store) :
  KeyCap_init data st
  = match keycap_rows data st with
    | (Raise e, st1) => (Raise e, st1)
    | (Ok g, st1) =>
      match keycap_colors data st1 with
      | (Raise e, st2) => (Raise e, st2)
      | (Ok colors, st2) =>
        match keycap_maps g colors with
        | Raise e => (Raise e, st2)
        | Ok maps => (Ok (MkKeyCap g (fst maps) (snd maps)), st2)
        end
      end
    end.
Proof.
  unfold KeyCap_init, bind, lift, ret.
  destruct (keycap_rows data st) as [[g|e] st1]; [|reflexivity].
  destruct (keycap_colors data st1) as [[colors|e] st2]; [|reflexivity].
  now destruct (keycap_maps g colors).
Qed.

(** The keycap built from an accepted grid and accepted colours. *)
Definition keycap_of (g colors : list (list str)) : KeyCap :=
  let maps := place_all (placements g colors) ([], []) in
  MkKeyCap g (fst maps) (snd maps).

(** Once both grids are accepted nothing else in the constructor can
    raise. *)
Lemma KeyCap_init_ok (data : str) (st st' : Store)
      (g colors : list (list str)) :
  keycap_rows data st = (Ok g, st) ->
  keycap_colors data st = (Ok colors, st') ->
  KeyCap_init data st = (Ok (keycap_of g colors), st').
Proof.
  intros Hr Hc. rewrite KeyCap_init_eq, Hr, Hc.
  assert (Hg : bad_shape g = false).
  { rewrite keycap_rows_eq in Hr.
    destruct (declared KeyCapRe.Pattern data); [|discriminate].
    destruct (bad_shape l) eqn:E; [discriminate|]. now injection Hr as <-. }
  assert (Hcs : bad_shape colors = false).
  { rewrite keycap_colors_eq in Hc.
    destruct (declared KeyCapRe.Colors data).
    - destruct (bad_shape l) eqn:E; [discriminate|]. now injection Hc as <- _.
    - now injection Hc as <- _. }
  now rewrite keycap_maps_ok by assumption.
Qed.

Lemma keycap_rows_store (data : str) (st st' : Store) r :
  keycap_rows data st = (r, st') -> st' = st.
Proof.
  rewrite keycap_rows_eq.
  destruct (declared KeyCapRe.Pattern data) as [g|];
    [destruct (bad_shape g)|]; now intros [= _ <-].
Qed.

(** Every successful construction is of that form. *)
Lemma KeyCap_init_inv (data : str) (st st' : Store) (kc : KeyCap) :
  KeyCap_init data st = (Ok kc, st') ->
  exists g colors,
    keycap_rows data st = (Ok g, st)
    /\ keycap_colors data st = (Ok colors, st')
    /\ bad_shape g = false /\ bad_shape colors = false
    /\ kc = keycap_of g colors.
Proof.
  intros H. pose proof H as H0. rewrite KeyCap_init_eq in H.
  destruct (keycap_rows data st) as [[g|e] st1] eqn:Hr; [|discriminate].
  pose proof (keycap_rows_store data st Hr) as ->.
  destruct (keycap_colors data st) as [[colors|e] st2] eqn:Hc; [|discriminate].
  assert (st2 = st') as ->.
  { destruct (keycap_maps g colors); now injection H as _ <-. }
  exists g, colors. rewrite (KeyCap_init_ok data Hr Hc) in H0.
  injection H0 as <-. repeat split.
  - rewrite keycap_rows_eq in Hr.
    destruct (declared KeyCapRe.Pattern data); [|discriminate].
    destruct (bad_shape l) eqn:E; [discriminate|]. now injection Hr as <-.
  - rewrite keycap_colors_eq in Hc.
    destruct (declared KeyCapRe.Colors data).
    + destruct (bad_shape l) eqn:E; [discriminate|]. now injection Hc as <- _.
    + now injection Hc as <- _.
Qed.

Lemma positions_NoDup : NoDup positions.
Proof.
  unfold positions.
  repeat (constructor; [simpl; intuition discriminate|]). constructor.
Qed.

Lemma NoDup_fst_unique {K V} (l : list (K * V)) (k : K) (v v' : V) :
  NoDup (map fst l) -> In (k, v) l -> In (k, v') l -> v = v'.
Proof.
  induction l as [|[k0 v0] l IH]; simpl; [contradiction|].
  intros Hnd [H|H] [H'|H']; inversion Hnd as [|? ? Hnot Hnd']; subst.
  - congruence.
  - injection H as <- <-. exfalso. apply Hnot.
    change k0 with (fst (k0, v')). now apply in_map.
  - injection H' as <- <-. exfalso. apply Hnot.
    change k0 with (fst (k0, v)). now apply in_map.
  - now apply IH.
Qed.

Section LastOccurrence.

Variables (g colors : list (list str)).
Hypothesis Hg : bad_shape g = false.

Let lm := layermap (keycap_of g colors).
Let cm := colormap (keycap_of g colors).

Variables (t : str) (r c : nat) (before after : list (nat * nat * str)).
Hypothesis Ht : t <> underscore.
Hypothesis Hcells : cells g = before ++ (r, c, t) :: after.
Hypothesis Hlast : forall x, In x after -> snd x <> t.

Lemma last_found :
  find (tok_is t) (rev (placements g colors))
  = Some (t, slot_of r c, color_at colors r c).
Proof.
  unfold placements. rewrite Hcells, map_app, rev_app_distr. simpl.
  rewrite <- app_assoc, find_app, find_none_iff.
  - simpl. unfold tok_is at 1. simpl. now rewrite PyStr.eqb_refl.
  - intros e He. apply in_rev, in_map_iff in He as (x & <- & Hx).
    unfold tok_is. simpl. apply PyStr.eqb_neq. now apply Hlast.
Qed.

Lemma last_slot : PyDict.get t lm = Some (slot_of r c).
Proof.
  unfold lm, keycap_of. simpl.
  rewrite (proj1 (place_all_get (placements g colors) ([], []) Ht)).
  now rewrite last_found.
Qed.

Lemma last_color : PyDict.get t cm = Some (color_at colors r c).
Proof.
  unfold cm, keycap_of. simpl.
  rewrite (proj2 (place_all_get (placements g colors) ([], []) Ht)).
  now rewrite last_found.
Qed.

Lemma cell_position (x : nat * nat * str) :
  In x (cells g) -> In (fst x) positions.
Proof.
  intros Hx. rewrite <- (cells_positions g Hg). now apply in_map.
Qed.

Lemma last_position : In (r, c) positions.
Proof.
  apply (cell_position (r, c, t)). rewrite Hcells.
  apply in_or_app. right. now left.
Qed.

(** The slot of an earlier cell holding the same token is the slot of
    no token at all. *)
Lemma earlier_slot_lost (r0 c0 : nat) (t' : str) :
  In (r0, c0, t) before ->
  PyDict.get t' lm <> Some (slot_of r0 c0).
Proof.
  intros Hbefore Hget. pose proof Hget as Hget0.
  assert (Hin0 : In (r0, c0, t) (cells g))
    by (rewrite Hcells; apply in_or_app; now left).
  assert (Hnd : NoDup (map fst (cells g)))
    by (rewrite (cells_positions g Hg); apply positions_NoDup).
  assert (Ht' : t' <> underscore).
  { intros ->. unfold lm, keycap_of in Hget. simpl in Hget.
    rewrite place_all_underscore in Hget. discriminate. }
  unfold lm, keycap_of in Hget. simpl in Hget.
  rewrite (proj1 (place_all_get (placements g colors) ([], []) Ht')) in Hget.
  destruct (find (tok_is t') (rev (placements g colors))) as [e|] eqn:Hf;
    [|discriminate].
  injection Hget as Hslot.
  apply find_some in Hf as [He Htok].
  apply in_rev, in_map_iff in He as ([[r' c'] tx] & <- & Hx).
  unfold tok_is in Htok. simpl in Htok, Hslot.
  apply PyStr.eqb_eq in Htok. subst tx.
  assert (Hpos : (r', c') = (r0, c0)).
  { apply label_pos_injective; [| |exact Hslot].
    - exact (cell_position _ Hx).
    - exact (cell_position _ Hin0). }
  injection Hpos as -> ->.
  assert (t' = t) as -> by exact (NoDup_fst_unique _ _ _ _ Hnd Hx Hin0).
  assert (Hrc : (r, c) = (r0, c0)).
  { apply label_pos_injective.
    - exact last_position.
    - exact (cell_position _ Hin0).
    - rewrite last_slot in Hget0. now injection Hget0. }
  injection Hrc as -> ->.
  rewrite Hcells, map_app in Hnd. simpl in Hnd.
  apply NoDup_remove_2 in Hnd. apply Hnd, in_or_app. left.
  change (r0, c0) with (fst (r0, c0, t)). now apply in_map.
Qed.

End LastOccurrence.

Lemma place_all_underscore_color (l : list (str * nat * str)) maps :
  PyDict.get underscore (snd (place_all l maps))
  = PyDict.get underscore (snd maps).
Proof.
  revert maps. induction l as [|e l IH]; intros maps; [reflexivity|].
  unfold place_all in *. simpl. rewrite IH. unfold put.
  destruct (PyStr.eqb_spec (fst (fst e)) underscore) as [E|E]; simpl;
    [reflexivity|].
  apply PyDict.get_set_other. congruence.
Qed.

(** The shape test accepts exactly four rows of three cells. *)
Lemma bad_shape_spec (g : list (list str)) :
  bad_shape g = false
  <-> length g = 4 /\ Forall (fun r => length r = 3) g.
Proof.
  split.
  - intros H.
    destruct (shape_4x3 g H)
      as (a0 & a1 & a2 & b0 & b1 & b2 & c0 & c1 & c2 & d0 & d1 & d2 & ->).
    split; [reflexivity | repeat constructor].
  - intros [Hn Hr]. unfold bad_shape. rewrite Hn. simpl.
    apply negb_false_iff, forallb_forall. intros r Hin.
    rewrite Forall_forall in Hr. apply Nat.eqb_eq. now apply Hr.
Qed.

(** With the default colours every recorded colour is black. *)
Lemma default_colors_black (g : list (list str)) (t color : str) :
  bad_shape g = false ->
  PyDict.get t (colormap (keycap_of g default_colors)) = Some color ->
  color = black.
Proof.
  intros Hg Hget. unfold keycap_of in Hget. simpl in Hget.
  destruct (PyStr.eqb_spec t underscore) as [->|Ht].
  - rewrite place_all_underscore_color in Hget. discriminate.
  - rewrite (proj2 (place_all_get (placements g default_colors) ([], []) Ht))
      in Hget.
    destruct (find (tok_is t) (rev (placements g default_colors)))
      as [e|] eqn:Hf; [|discriminate].
    injection Hget as <-.
    apply find_some in Hf as [He _].
    apply in_rev, in_map_iff in He as ([[r c] tx] & <- & Hx).
    pose proof (cell_position g Hg _ Hx) as Hpos. simpl in *.
    unfold positions in Hpos. simpl in Hpos.
    repeat (destruct Hpos as [Hpos|Hpos];
            [injection Hpos as <- <-; reflexivity|]).
    contradiction.
Qed.

(** C4, as amended.  Once the keycap declaration has been accepted:
    if there is no colors declaration, a warning is recorded, the
    all-[#000000] grid of four rows of three is used in its place and
    construction does not fail, every recorded colour being black; if
    there is one and it is not four rows of three, construction aborts
    with the malformed-colors error.  When the keycap declaration is
    absent or malformed, construction aborts on it with its own error,
    whatever the colors declaration is, and no warning is recorded. *)
Theorem colors_declaration (data : str) (st : Store) :
  (forall g,
      keycap_rows data st = (Ok g, st) ->
      (declared KeyCapRe.Colors data = None ->
         keycap_colors data st = (Ok default_colors, warned st)
         /\ default_colors = repeat (repeat black 3) 4
         /\ KeyCap_init data st
            = (Ok (keycap_of g default_colors), warned st)
         /\ forall t color,
             PyDict.get t (colormap (keycap_of g default_colors))
             = Some color -> color = black)
      /\ (forall colors,
            declared KeyCapRe.Colors data = Some colors ->
            bad_shape colors = true ->
            keycap_colors data st
            = (Raise (RuntimeError msg_colors_shape), st)
            /\ KeyCap_init data st
               = (Raise (RuntimeError msg_colors_shape), st)))
  /\ (forall e,
        keycap_rows data st = (Raise e, st) ->
        KeyCap_init data st = (Raise e, st)
        /\ (e = RuntimeError msg_keycap_missing
            \/ e = RuntimeError msg_keycap_shape)).
Proof.
  split.
  - intros g Hr. split.
    + intros Hnone.
      assert (Hc : keycap_colors data st = (Ok default_colors, warned st))
        by (rewrite keycap_colors_eq; now rewrite Hnone).
      split; [exact Hc | split; [reflexivity|]]. split.
      * exact (KeyCap_init_ok data Hr Hc).
      * intros t color. apply default_colors_black.
        rewrite keycap_rows_eq in Hr.
        destruct (declared KeyCapRe.Pattern data); [|discriminate].
        destruct (bad_shape l) eqn:E; [discriminate|].
        now injection Hr as <-.
    + intros colors Hsome Hbad.
      assert (Hc : keycap_colors data st
                   = (Raise (RuntimeError msg_colors_shape), st))
        by (rewrite keycap_colors_eq, Hsome; now rewrite Hbad).
      split; [exact Hc|].
      rewrite KeyCap_init_eq, Hr, Hc. reflexivity.
  - intros e Hr. split.
    + rewrite KeyCap_init_eq, Hr. reflexivity.
    + rewrite keycap_rows_eq in Hr.
      destruct (declared KeyCapRe.Pattern data) as [g|].
      * destruct (bad_shape g); [|discriminate].
        injection Hr as <-. now right.
      * injection Hr as <-. now left.
Qed.

(** Sample inputs. *)
Definition lines (ls : list string) : str := join [newline] (map u ls).

Definition store0 : Store := MkStore kmonad_aliases0 [].

Definition sample_keycap : str :=
  lines [ "(keycap a b _"; "_ _ _"; "_ _ _"; "_ _ _)" ]%string.

Definition sample_grid : list (list str) :=
  map (map u) [ ["a"; "b"; "_"]; ["_"; "_"; "_"];
                ["_"; "_"; "_"]; ["_"; "_"; "_"] ]%string.

(** The same with a colors declaration whose first row has two
    columns. *)
Definition sample_two_columns : str :=
  lines [ "(keycap a b _"; "_ _ _"; "_ _ _"; "_ _ _)";
          "(colors #111111 #222222";
          "#333333 #444444 #555555";
          "#666666 #777777 #888888";
          "#999999 #aaaaaa #bbbbbb)" ]%string.

Lemma colors_declaration_witness :
  KeyCap_init sample_keycap store0
  = (Ok (keycap_of sample_grid default_colors), warned store0)
  /\ KeyCap_init sample_two_columns store0
     = (Raise (RuntimeError msg_colors_shape), store0).
Proof.
  split.
  - refine (proj1 (proj2 (proj2 (proj1
              (proj1 (colors_declaration sample_keycap store0)
                     sample_grid _) _))));
      vm_compute; reflexivity.
  - refine (proj2 (proj2
              (proj1 (colors_declaration sample_two_columns store0)
                     sample_grid _) _ _ _));
      vm_compute; reflexivity.
Defined.

(** A hardware section with neither a keycap nor a colors
    declaration. *)
Definition sample_label_only : str := u "(label foo bar)".

(** C4, as stated, fails: that the colors declaration is absent does
    not by itself mean that a warning is recorded and construction goes
    through.  Here there is none, and the constructor aborts on the
    keycap declaration, which it looks at first, without printing
    anything. *)
Lemma colors_absent_yet_aborts :
  declared KeyCapRe.Colors sample_label_only = None
  /\ KeyCap_init sample_label_only store0
     = (Raise (RuntimeError msg_keycap_missing), store0)
  /\ stdout (snd (KeyCap_init sample_label_only store0)) = []
  /\ ~ (forall data st,
          declared KeyCapRe.Colors data = None ->
          exists kc,
            KeyCap_init data st = (Ok kc, warned st)).
Proof.
  assert (H1 : declared KeyCapRe.Colors sample_label_only = None)
    by (vm_compute; reflexivity).
  assert (H2 : KeyCap_init sample_label_only store0
               = (Raise (RuntimeError msg_keycap_missing), store0))
    by (vm_compute; reflexivity).
  split; [exact H1|]. split; [exact H2|]. split; [now rewrite H2|].
  intros H. destruct (H _ store0 H1) as (kc & Hk).
  rewrite H2 in Hk. discriminate.
Qed.

(** *** Keycap model: the keycap declaration *)

(** C5, as amended.  Construction requires the keycap declaration: when
    it is absent construction aborts with the missing-keycap error; when
    it is present but not four rows of three it aborts with the
    malformed-keycap error; otherwise the grid is accepted, and
    construction succeeds on it, the empty marker being no key of either
    map, unless the colors declaration is present and malformed, in
    which case construction aborts with the malformed-colors error. *)
Theorem keycap_declaration (data : str) (st : Store) :
  (declared KeyCapRe.Pattern data = None ->
     KeyCap_init data st = (Raise (RuntimeError msg_keycap_missing), st))
  /\ (forall g,
       declared KeyCapRe.Pattern data = Some g -> bad_shape g = true ->
       KeyCap_init data st = (Raise (RuntimeError msg_keycap_shape), st))
  /\ (forall g,
       declared KeyCapRe.Pattern data = Some g -> bad_shape g = false ->
       keycap_rows data st = (Ok g, st)
       /\ (forall colors st',
             keycap_colors data st = (Ok colors, st') ->
             exists kc,
               KeyCap_init data st = (Ok kc, st')
               /\ rows kc = g
               /\ PyDict.get underscore (layermap kc) = None
               /\ PyDict.get underscore (colormap kc) = None)
       /\ (forall e st',
             keycap_colors data st = (Raise e, st') ->
             KeyCap_init data st = (Raise e, st')
             /\ e = RuntimeError msg_colors_shape)).
Proof.
  repeat split.
  - intros Hnone. rewrite KeyCap_init_eq, keycap_rows_eq.
    now rewrite Hnone.
  - intros g Hsome Hbad. rewrite KeyCap_init_eq, keycap_rows_eq, Hsome.
    now rewrite Hbad.
  - rewrite keycap_rows_eq, H. now rewrite H0.
  - intros colors st' Hc.
    assert (Hr : keycap_rows data st = (Ok g, st))
      by (rewrite keycap_rows_eq, H; now rewrite H0).
    exists (keycap_of g colors). split; [exact (KeyCap_init_ok data Hr Hc)|].
    split; [reflexivity|]. unfold keycap_of. simpl.
    now rewrite place_all_underscore, place_all_underscore_color.
  - assert (Hr : keycap_rows data st = (Ok g, st))
      by (rewrite keycap_rows_eq, H; now rewrite H0).
    rewrite KeyCap_init_eq, Hr, H1. reflexivity.
  - rewrite keycap_colors_eq in H1.
    destruct (declared KeyCapRe.Colors data) as [cs|]; [|discriminate].
    destruct (bad_shape cs); [now injection H1 as <- _ | discriminate].
Qed.

Definition sample_no_keycap : str := u "(colors #000000)".

Definition sample_three_rows : str :=
  lines [ "(keycap a b _"; "_ _ _"; "_ _ _)" ]%string.

Lemma keycap_declaration_witness :
  KeyCap_init sample_no_keycap store0
  = (Raise (RuntimeError msg_keycap_missing), store0)
  /\ KeyCap_init sample_three_rows store0
     = (Raise (RuntimeError msg_keycap_shape), store0)
  /\ exists kc,
      KeyCap_init sample_keycap store0 = (Ok kc, warned store0)
      /\ rows kc = sample_grid
      /\ PyDict.get underscore (layermap kc) = None
      /\ PyDict.get underscore (colormap kc) = None.
Proof.
  split; [|split].
  - apply (proj1 (keycap_declaration sample_no_keycap store0)).
    vm_compute; reflexivity.
  - refine (proj1 (proj2 (keycap_declaration sample_three_rows store0))
                  _ _ _); vm_compute; reflexivity.
  - refine (proj1 (proj2 (proj2 (proj2 (keycap_declaration sample_keycap
              store0)) sample_grid _ _)) default_colors (warned store0) _);
      vm_compute; reflexivity.
Defined.

(** C5, as stated, fails: a keycap declaration of four rows of three
    does not by itself make construction succeed.  Here the grid is
    accepted and the constructor still aborts, on the colors
    declaration. *)
Lemma keycap_accepted_yet_aborts :
  declared KeyCapRe.Pattern sample_two_columns = Some sample_grid
  /\ bad_shape sample_grid = false
  /\ KeyCap_init sample_two_columns store0
     = (Raise (RuntimeError msg_colors_shape), store0)
  /\ ~ (forall data st g,
          declared KeyCapRe.Pattern data = Some g ->
          bad_shape g = false ->
          exists kc st', KeyCap_init data st = (Ok kc, st')).
Proof.
  assert (H1 : declared KeyCapRe.Pattern sample_two_columns
               = Some sample_grid) by (vm_compute; reflexivity).
  assert (H2 : bad_shape sample_grid = false) by reflexivity.
  assert (H3 : KeyCap_init sample_two_columns store0
               = (Raise (RuntimeError msg_colors_shape), store0))
    by (vm_compute; reflexivity).
  repeat split; try assumption.
  intros H. destruct (H _ store0 _ H1 H2) as (kc & st' & Hk).
  rewrite H3 in Hk. discriminate.
Qed.

(** *** Keycap model: a token in more than one cell *)

(** C10.  Whatever tokens the accepted grids hold, repeated or not,
    building the two maps does not fail.  A token other than the empty
    marker is recorded with the slot and the colour of its last cell in
    row-by-row, left-to-right order; the slot of any earlier cell that
    holds the same token is then the slot of no token, so cells and
    slots no longer correspond one to one. *)
Theorem keycap_duplicate_token (data : str) (st : Store) :
  (forall g colors st',
      keycap_rows data st = (Ok g, st) ->
      keycap_colors data st = (Ok colors, st') ->
      exists kc, KeyCap_init data st = (Ok kc, st') /\ rows kc = g)
  /\ (forall kc st' colors t r c before after,
      KeyCap_init data st = (Ok kc, st') ->
      keycap_colors data st = (Ok colors, st') ->
      t <> underscore ->
      cells (rows kc) = before ++ (r, c, t) :: after ->
      (forall x, In x after -> snd x <> t) ->
      label_pos r c = Ok (slot_of r c)
      /\ PyDict.get t (layermap kc) = Some (slot_of r c)
      /\ PyDict.get t (colormap kc) = Some (color_at colors r c)
      /\ forall r0 c0 t',
          In (r0, c0, t) before ->
          label_pos r0 c0 = Ok (slot_of r0 c0)
          /\ slot_of r0 c0 <> slot_of r c
          /\ PyDict.get t' (layermap kc) <> Some (slot_of r0 c0)).
Proof.
  split.
  - intros g colors st' Hr Hc. exists (keycap_of g colors).
    split; [exact (KeyCap_init_ok data Hr Hc) | reflexivity].
  - intros kc st' colors t r c before after Hinit Hc Ht Hcells Hlast.
    destruct (KeyCap_init_inv data st Hinit)
      as (g & colors' & Hr & Hc' & Hg & Hcs & ->).
    rewrite Hc in Hc'. injection Hc' as <-.
    change (rows (keycap_of g colors)) with g in Hcells.
    assert (Hpos : In (r, c) positions)
      by (eapply (last_position g Hg); eassumption).
    assert (Hslot : PyDict.get t (layermap (keycap_of g colors))
                    = Some (slot_of r c))
      by (eapply (last_slot g colors); eassumption).
    repeat split.
    + now apply label_pos_total.
    + exact Hslot.
    + eapply (last_color g colors); eassumption.
    + apply label_pos_total. apply (cell_position g Hg (r0, c0, t)).
      rewrite Hcells. apply in_or_app. now left.
    + intros E. rewrite <- E in Hslot. revert Hslot.
      eapply (earlier_slot_lost g colors Hg); eassumption.
    + eapply (earlier_slot_lost g colors Hg); eassumption.
Qed.

(** A grid with [a] at (0,0) and again at (0,2). *)
Definition sample_twice : str :=
  lines [ "(keycap a b a"; "_ _ _"; "_ _ _"; "_ _ _)";
          "(colors #111111 #222222 #cccccc";
          "#333333 #444444 #555555";
          "#666666 #777777 #888888";
          "#999999 #aaaaaa #bbbbbb)" ]%string.

Lemma keycap_duplicate_token_witness :
  exists kc,
    KeyCap_init sample_twice store0 = (Ok kc, store0)
    /\ PyDict.get (u "a") (layermap kc) = Some 2
    /\ PyDict.get (u "a") (colormap kc) = Some (u "#cccccc")
    /\ forall t', PyDict.get t' (layermap kc) <> Some 0.
Proof.
  destruct (keycap_duplicate_token sample_twice store0) as [_ H].
  set (kc := match fst (KeyCap_init sample_twice store0) with
             | Ok kc => kc
             | Raise _ => MkKeyCap [] [] []
             end).
  assert (Hinit : KeyCap_init sample_twice store0 = (Ok kc, store0))
    by (vm_compute; reflexivity).
  assert (Hc : exists colors,
             keycap_colors sample_twice store0 = (Ok colors, store0)
             /\ color_at colors 0 2 = u "#cccccc")
    by (eexists; split; vm_compute; reflexivity).
  destruct Hc as (colors & Hc & Hcol).
  assert (Ha : u "a" <> underscore) by (vm_compute; discriminate).
  assert (Hcells : cells (rows kc)
                   = [(0, 0, u "a"); (0, 1, u "b")]
                       ++ (0, 2, u "a")
                       :: map (fun p => (p, underscore)) (skipn 3 positions))
    by (vm_compute; reflexivity).
  assert (Hlast : forall x,
             In x (map (fun p => (p, underscore)) (skipn 3 positions)) ->
             snd x <> u "a").
  { intros x Hx. apply in_map_iff in Hx as (p & <- & _). simpl.
    vm_compute. discriminate. }
  destruct (H kc store0 colors (u "a") 0 2 _ _ Hinit Hc Ha Hcells Hlast)
    as (_ & Hslot & Hcolor & Hearlier).
  exists kc. split; [exact Hinit|]. split; [exact Hslot|]. split.
  - rewrite Hcolor. now rewrite Hcol.
  - intros t'. apply (Hearlier 0 0 t'). now left.
Defined.

(** *** Keycap model: what the layer map holds *)

Section LayerMap.

Variables (g colors : list (list str)).
Hypothesis Hg : bad_shape g = false.

Let lm := layermap (keycap_of g colors).

(** A key of the layer map sits in a cell of the grid, and its slot is
    that cell's. *)
Lemma layermap_cell (t : str) (p : nat) :
  PyDict.get t lm = Some p ->
  t <> underscore
  /\ exists r c, In (r, c, t) (cells g) /\ label_pos r c = Ok p /\ p < 12.
Proof.
  intros Hget. unfold lm, keycap_of in Hget. simpl in Hget.
  assert (Ht : t <> underscore).
  { intros ->. rewrite place_all_underscore in Hget. discriminate. }
  split; [exact Ht|].
  rewrite (proj1 (place_all_get (placements g colors) ([], []) Ht)) in Hget.
  destruct (find (tok_is t) (rev (placements g colors))) as [e|] eqn:Hf;
    [|discriminate].
  injection Hget as <-.
  apply find_some in Hf as [He Htok].
  apply in_rev, in_map_iff in He as ([[r c] tx] & <- & Hx).
  unfold tok_is in Htok. simpl in Htok. apply PyStr.eqb_eq in Htok.
  subst tx. exists r, c. simpl.
  destruct (@label_pos_total r c (cell_position g Hg _ Hx)) as [E L].
  now repeat split.
Qed.

(** A token held by some cell is a key, unless it is the empty
    marker. *)
Lemma layermap_present (t : str) (r c : nat) :
  In (r, c, t) (cells g) -> t <> underscore -> PyDict.get t lm <> None.
Proof.
  intros Hin Ht Hget. unfold lm, keycap_of in Hget. simpl in Hget.
  rewrite (proj1 (place_all_get (placements g colors) ([], []) Ht)) in Hget.
  destruct (find (tok_is t) (rev (placements g colors))) as [e|] eqn:Hf;
    [discriminate|].
  pose proof (find_none _ _ Hf
                (t, slot_of r c, color_at colors r c)) as Hn.
  unfold tok_is in Hn. simpl in Hn. rewrite PyStr.eqb_refl in Hn.
  assert (true = false); [|discriminate]. apply Hn.
  apply -> in_rev. unfold placements.
  apply in_map_iff. exists (r, c, t). now split.
Qed.

(** Two keys never share a slot. *)
Lemma layermap_injective (t1 t2 : str) (p : nat) :
  PyDict.get t1 lm = Some p -> PyDict.get t2 lm = Some p -> t1 = t2.
Proof.
  intros H1 H2.
  destruct (layermap_cell _ H1) as (_ & r1 & c1 & Hx1 & Hp1 & _).
  destruct (layermap_cell _ H2) as (_ & r2 & c2 & Hx2 & Hp2 & _).
  assert (Hnd : NoDup (map fst (cells g)))
    by (rewrite (cells_positions g Hg); apply positions_NoDup).
  assert (Hpos : (r1, c1) = (r2, c2)).
  { apply label_pos_injective.
    - exact (cell_position g Hg _ Hx1).
    - exact (cell_position g Hg _ Hx2).
    - unfold slot_of. now rewrite Hp1, Hp2. }
  injection Hpos as -> ->.
  exact (NoDup_fst_unique _ _ _ _ Hnd Hx1 Hx2).
Qed.

End LayerMap.

(** *** Keycap model: [label] *)

Lemma update_length {X} (xs : list X) (i : nat) (x : X) :
  length (update xs i x) = length xs.
Proof.
  revert i; induction xs as [|y xs IH]; intros [|i]; simpl; auto.
Qed.

Lemma update_nth {X} (xs : list X) (i j : nat) (x : X) :
  i < length xs ->
  nth_error (update xs i x) j
  = if Nat.eqb i j then Some x else nth_error xs j.
Proof.
  revert i j; induction xs as [|y xs IH]; intros [|i] [|j]; simpl;
    try lia; auto.
  intros H. apply IH. lia.
Qed.

(** The assignments [lab[p] = text] of a run of the loop, in order. *)
Definition write_all (ws : list (nat * str)) (lab : list str) : list str :=
  fold_left (fun lab w => update lab (fst w) (snd w)) ws lab.

Lemma write_all_length (ws : list (nat * str)) (lab : list str) :
  length (write_all ws lab) = length lab.
Proof.
  revert lab; induction ws as [|w ws IH]; intros lab; simpl; [reflexivity|].
  unfold write_all in *. simpl. now rewrite IH, update_length.
Qed.

Lemma write_all_nth (ws : list (nat * str)) (lab : list str) (p : nat) :
  (forall w, In w ws -> fst w < length lab) ->
  nth_error (write_all ws lab) p
  = match find (fun w => Nat.eqb (fst w) p) (rev ws) with
    | Some w => Some (snd w)
    | None => nth_error lab p
    end.
Proof.
  induction ws as [|w ws IH] using rev_ind; intros Hlt; [reflexivity|].
  unfold write_all in *. rewrite fold_left_app, rev_app_distr. simpl.
  rewrite update_nth.
  - destruct (Nat.eqb (fst w) p); [reflexivity|].
    apply IH. intros w' Hw'. apply Hlt, in_or_app. now left.
  - fold (write_all ws lab). rewrite write_all_length.
    apply Hlt, in_or_app. right. now left.
Qed.

Lemma find_unique_fst {V} (ws : list (nat * V)) (p : nat) (v : V) :
  NoDup (map fst ws) -> In (p, v) ws ->
  find (fun w => Nat.eqb (fst w) p) ws = Some (p, v).
Proof.
  induction ws as [|[q x] ws IH]; simpl; [contradiction|].
  intros Hnd Hin. inversion Hnd as [|? ? Hnot Hnd']; subst.
  destruct (Nat.eqb_spec q p) as [->|Hne].
  - destruct Hin as [Hin|Hin]; [congruence|].
    exfalso. apply Hnot. change p with (fst (p, v)). now apply in_map.
  - destruct Hin as [Hin|Hin]; [congruence | auto].
Qed.

Section Label.

Variable isalpha_beyond_ascii : char -> bool.
Variable upper_beyond_ascii : char -> str.

Local Abbreviation translate' :=
  (translate isalpha_beyond_ascii upper_beyond_ascii).
Local Abbreviation label' :=
  (label isalpha_beyond_ascii upper_beyond_ascii).
Local Abbreviation label_step' :=
  (label_step isalpha_beyond_ascii upper_beyond_ascii).

(** What [translate] returns in a given store. *)
Definition translated (st : Store) (key : str) : str :=
  plain_rules isalpha_beyond_ascii upper_beyond_ascii
              (PyDict.get_default key key (kmonad_aliases st)).

(** The text as it is written on the key: backslashes are dropped
    unless the text is exactly an escaped backslash or an escaped
    quote. *)
Definition shown (text : str) : str :=
  if PyStr.eqb text (u "\\") || PyStr.eqb text (backslash :: [dquote])
  then text
  else replace backslash [] text.

(** The assignment a pair of [keys] causes, if any. *)
Definition write_of (lm : PyDict.dict nat) (st : Store)
           (item : str * option str) : list (nat * str) :=
  match snd item with
  | Some (ch :: key) =>
    match PyDict.get (fst item) lm with
    | Some p => [(p, shown (translated st (ch :: key)))]
    | None => []
    end
  | _ => []
  end.

Definition writes (lm : PyDict.dict nat) (st : Store)
           (keys : PyDict.dict (option str)) : list (nat * str) :=
  flat_map (write_of lm st) keys.

(** The finished literal. *)
Definition rendered (lab : list str) : str :=
  quoted (sub trailing_newlines [] (join (u "\n") lab)).

Section Built.

Variable self : KeyCap.
Hypothesis Hslots : forall layer p,
    PyDict.get layer (layermap self) = Some p -> p < 12.

Lemma label_step_eq (lab : list str) (item : str * option str) (st : Store) :
  length lab = 12 ->
  label_step' self lab item st
  = (Ok (write_all (write_of (layermap self) st item) lab), st).
Proof.
  intros Hlen. destruct item as [layer [[|ch key]|]]; try reflexivity.
  unfold label_step, write_of, bind. simpl snd. simpl fst.
  rewrite translate_eq. fold (translated st (ch :: key)).
  destruct (PyDict.get layer (layermap self)) as [p|] eqn:Hp;
    [|reflexivity].
  unfold shown, lift, setitem. rewrite Hlen.
  destruct (Nat.ltb_spec p 12) as [_|Hge];
    [|specialize (Hslots _ Hp); lia].
  now destruct (_ || _).
Qed.

Lemma label_loop_eq (keys : PyDict.dict (option str)) (lab : list str)
      (st : Store) :
  length lab = 12 ->
  foldM (label_step' self) keys lab st
  = (Ok (write_all (writes (layermap self) st keys) lab), st).
Proof.
  revert lab. induction keys as [|item keys IH]; intros lab Hlen;
    [reflexivity|].
  simpl. unfold bind at 1. rewrite label_step_eq by exact Hlen.
  rewrite IH by (now rewrite write_all_length).
  unfold writes, write_all. simpl. now rewrite fold_left_app.
Qed.

Lemma label_eq (keys : PyDict.dict (option str)) (st : Store) :
  label' self keys st
  = (Ok (rendered (write_all (writes (layermap self) st keys) empty_lab)),
     st).
Proof.
  unfold label, bind. now rewrite label_loop_eq by reflexivity.
Qed.

End Built.

End Label.

Section LabelPlacement.

Variable isalpha_beyond_ascii : char -> bool.
Variable upper_beyond_ascii : char -> str.

Local Abbreviation label' :=
  (label isalpha_beyond_ascii upper_beyond_ascii).
Local Abbreviation translated' :=
  (translated isalpha_beyond_ascii upper_beyond_ascii).
Local Abbreviation writes' :=
  (writes isalpha_beyond_ascii upper_beyond_ascii).
Local Abbreviation write_of' :=
  (write_of isalpha_beyond_ascii upper_beyond_ascii).

Lemma in_writes (lm : PyDict.dict nat) (st : Store)
      (keys : PyDict.dict (option str)) (w : nat * str) :
  In w (writes' lm st keys) <->
  exists layer tok,
    In (layer, Some tok) keys /\ tok <> []
    /\ PyDict.get layer lm = Some (fst w)
    /\ snd w = shown (translated' st tok).
Proof.
  unfold writes. rewrite in_flat_map. split.
  - intros ([layer [[|ch key]|]] & Hin & Hw); unfold write_of in Hw;
      simpl in Hw; try contradiction.
    destruct (PyDict.get layer lm) as [p|] eqn:Hp; [|contradiction].
    destruct Hw as [<-|[]]. exists layer, (ch :: key).
    repeat split; auto. discriminate.
  - intros (layer & tok & Hin & Hne & Hp & Hs).
    exists (layer, Some tok). split; [exact Hin|].
    unfold write_of. simpl. destruct tok as [|ch key]; [congruence|].
    rewrite Hp. left. destruct w; simpl in *. now subst.
Qed.

Lemma writes_NoDup (lm : PyDict.dict nat) (st : Store)
      (keys : PyDict.dict (option str)) :
  (forall t1 t2 p, PyDict.get t1 lm = Some p -> PyDict.get t2 lm = Some p ->
                   t1 = t2) ->
  NoDup (PyDict.keys keys) ->
  NoDup (map fst (writes' lm st keys)).
Proof.
  intros Hinj. induction keys as [|[layer tok] keys IH]; simpl;
    intros Hnd; [constructor|].
  inversion Hnd as [|? ? Hnot Hnd']; subst.
  unfold writes in *. simpl. rewrite map_app.
  apply NoDup_app; [| now apply IH |].
  - unfold write_of. simpl. destruct tok as [[|ch key]|]; try constructor.
    destruct (PyDict.get layer lm); repeat constructor; intros [].
  - intros p Hp Hp'.
    apply in_map_iff in Hp' as (w' & <- & Hw').
    apply in_writes in Hw' as (layer' & tok' & Hin' & _ & Hget' & _).
    unfold write_of in Hp. simpl in Hp.
    destruct tok as [[|ch key]|]; try contradiction.
    destruct (PyDict.get layer lm) as [q|] eqn:Hq; [|contradiction].
    destruct Hp as [Hp|[]]. simpl in Hp. subst q.
    assert (layer = layer') as -> by exact (Hinj _ _ _ Hq Hget').
    apply Hnot. change layer' with (fst (layer', Some tok')).
    now apply in_map.
Qed.

(** C1, as amended.  For a keycap built from the hardware section and a
    mapping from layer name to token with no name twice, [label] places
    each pair that has a non-empty token by the slot of its layer name
    in the name-to-slot map derived from the keycap grid: the name in
    cell (r, c) is mapped to [label_pos[(r, c)]].  The translated token,
    as shown, is the line of that slot.  A pair whose layer name is not
    in the grid is skipped without error, and a slot that no such pair
    claims stays an empty line; whether the token itself occurs in the
    grid plays no part. *)
Theorem label_by_layer_name (data : str) (st0 st0' : Store) (kc : KeyCap)
        (keys : PyDict.dict (option str)) (st : Store) :
  KeyCap_init data st0 = (Ok kc, st0') ->
  NoDup (PyDict.keys keys) ->
  exists lab,
    label' kc keys st = (Ok (rendered lab), st)
    /\ length lab = 12
    /\ (forall layer p,
          PyDict.get layer (layermap kc) = Some p ->
          exists r c, In (r, c, layer) (cells (rows kc))
                      /\ label_pos r c = Ok p)
    /\ (forall layer r c,
          In (r, c, layer) (cells (rows kc)) -> layer <> underscore ->
          PyDict.get layer (layermap kc) <> None)
    /\ (forall layer tok p,
          In (layer, Some tok) keys -> tok <> [] ->
          PyDict.get layer (layermap kc) = Some p ->
          nth_error lab p = Some (shown (translated' st tok)))
    /\ (forall p,
          p < 12 ->
          (forall layer tok,
              In (layer, Some tok) keys -> tok <> [] ->
              PyDict.get layer (layermap kc) <> Some p) ->
          nth_error lab p = Some []).
Proof.
  intros Hinit Hnd.
  destruct (KeyCap_init_inv data st0 Hinit)
    as (g & colors & _ & _ & Hg & _ & ->).
  set (kc := keycap_of g colors).
  assert (Hslots : forall layer p,
             PyDict.get layer (layermap kc) = Some p -> p < 12).
  { intros layer p Hp.
    now destruct (layermap_cell g colors Hg _ Hp) as (_ & r & c & _ & _ & L). }
  set (ws := writes' (layermap kc) st keys).
  assert (Hws : NoDup (map fst ws)).
  { apply writes_NoDup; [|exact Hnd].
    intros t1 t2 p. apply (layermap_injective g colors Hg). }
  assert (Hlt : forall w, In w ws -> fst w < length empty_lab).
  { intros w Hw. apply in_writes in Hw as (layer & tok & _ & _ & Hp & _).
    exact (Hslots _ _ Hp). }
  exists (write_all ws empty_lab). split; [|split; [|split; [|split; [|split]]]].
  - apply label_eq. exact Hslots.
  - now rewrite write_all_length.
  - intros layer p Hp.
    destruct (layermap_cell g colors Hg _ Hp) as (_ & r & c & Hx & E & _).
    now exists r, c.
  - intros layer r c Hx Hne.
    eapply (layermap_present g colors); eassumption.
  - intros layer tok p Hin Hne Hp.
    rewrite (write_all_nth ws empty_lab p Hlt).
    rewrite (find_unique_fst (rev ws) p (shown (translated' st tok))).
    + reflexivity.
    + rewrite map_rev. now apply NoDup_rev.
    + apply -> in_rev. apply in_writes. exists layer, tok. now repeat split.
  - intros p Hp Hfree.
    rewrite (write_all_nth ws empty_lab p Hlt).
    rewrite find_none_iff.
    + now do 12 (destruct p as [|p]; [reflexivity|]); simpl in Hp; lia.
    + intros w Hw. apply in_rev in Hw.
      apply in_writes in Hw as (layer & tok & Hin & Hne & Hget & _).
      apply Nat.eqb_neq. intros E. subst p.
      exact (Hfree layer tok Hin Hne Hget).
Qed.

End LabelPlacement.

(** The label operation as the specification words it: a pair with a
    non-empty token is placed by the slot of that token in the map
    derived from the keycap grid, and skipped when the token is not in
    the grid. *)
Definition label_step_spec (isalpha_beyond_ascii : char -> bool)
           (upper_beyond_ascii : char -> str) (self : KeyCap)
           (lab : list str) (item : str * option str) : M (list str) :=
  match snd item with
  | None | Some [] => ret lab
  | Some token =>
    let p := PyDict.get token (layermap self) in
    text <- translate isalpha_beyond_ascii upper_beyond_ascii token ;;
    match p with
    | Some p => lift (setitem lab p (shown text))
    | None => ret lab
    end
  end.

Definition label_spec (isalpha_beyond_ascii : char -> bool)
           (upper_beyond_ascii : char -> str) (self : KeyCap)
           (keys : PyDict.dict (option str)) : M str :=
  lab <- foldM (label_step_spec isalpha_beyond_ascii upper_beyond_ascii self)
               keys empty_lab ;;
  ret (rendered lab).

(** The keycap of [sample_keycap]: [a] in cell (0,0), [b] in cell
    (0,1). *)
Definition sample_kc : KeyCap := keycap_of sample_grid default_colors.

(** One physical key: the base layer binds [a], the overlay [F1]. *)
Definition sample_keys : PyDict.dict (option str) :=
  [ (u "defsrc", Some (u "a")); (u "nav", Some (u "F1")) ].

(** The same key seen from layers that are named in the grid. *)
Definition sample_keys_named : PyDict.dict (option str) :=
  [ (u "a", Some (u "x")); (u "b", Some (u "F1")) ].

(** C1, as stated, fails: the slot is looked up under the layer name,
    not under the token.  With [a] in the grid, the pair
    (defsrc, a) shows nothing, because no cell holds [defsrc]; looked up
    by token it would show [A] in slot 0.  And a pair whose token [x] is
    nowhere in the grid is shown all the same when its layer is named
    [a]. *)
Lemma label_not_by_token :
  KeyCap_init sample_keycap store0 = (Ok sample_kc, warned store0)
  /\ fst (label ascii_letters_only ascii_upper_only sample_kc sample_keys
                store0)
     = Ok (quoted [])
  /\ fst (label_spec ascii_letters_only ascii_upper_only sample_kc
                     sample_keys store0)
     = Ok (quoted (u "A"))
  /\ fst (label ascii_letters_only ascii_upper_only sample_kc
                sample_keys_named store0)
     = Ok (quoted (u "X\n\n\n\n\n\n\n\nF1"))
  /\ fst (label_spec ascii_letters_only ascii_upper_only sample_kc
                     sample_keys_named store0)
     = Ok (quoted [])
  /\ fst (label ascii_letters_only ascii_upper_only sample_kc sample_keys
                store0)
     <> fst (label_spec ascii_letters_only ascii_upper_only sample_kc
                        sample_keys store0).
Proof. vm_compute. repeat split. discriminate. Qed.

Lemma label_by_layer_name_witness :
  exists lab,
    label ascii_letters_only ascii_upper_only sample_kc sample_keys_named
          store0
    = (Ok (rendered lab), store0)
    /\ nth_error lab 0 = Some (u "X")
    /\ nth_error lab 8 = Some (u "F1")
    /\ nth_error lab 1 = Some [].
Proof.
  assert (Hinit : KeyCap_init sample_keycap store0
                  = (Ok sample_kc, warned store0))
    by (vm_compute; reflexivity).
  assert (Hnd : NoDup (PyDict.keys sample_keys_named)).
  { repeat constructor; simpl; intuition discriminate. }
  destruct (label_by_layer_name ascii_letters_only ascii_upper_only
              sample_keycap store0 sample_keys_named store0 Hinit Hnd)
    as (lab & Hlab & _ & _ & _ & Hplace & Hfree).
  exists lab. split; [exact Hlab|]. split; [|split].
  - apply (Hplace (u "a") (u "x") 0); [now left | discriminate | reflexivity].
  - apply (Hplace (u "b") (u "F1") 8);
      [right; now left | discriminate | reflexivity].
  - apply Hfree; [lia|].
    intros layer tok [H|[H|[]]] _; injection H as <- <-;
      vm_compute; discriminate.
Defined.

(** *** Alias table: [label] declarations *)

(** The table after the declarations [ms] of [data] have been stored in
    turn. *)
Definition store_labels (data : str) (ms : list Match)
           (tbl : PyDict.dict str) : PyDict.dict str :=
  fold_left (fun tbl m => PyDict.set (text data m "name")
                                     (text data m "data") tbl)
            ms tbl.

Lemma import_labels_loop (data : str) (ms : list Match) (st : Store) :
  foldM (fun _ m => set_alias (text data m "name") (text data m "data"))
        ms tt st
  = (Ok tt, MkStore (store_labels data ms (kmonad_aliases st)) (stdout st)).
Proof.
  revert st. induction ms as [|m ms IH]; intros st.
  - now destruct st.
  - simpl. unfold bind at 1, set_alias at 1. now rewrite IH.
Qed.

Lemma import_labels_eq (data : str) (st : Store) :
  import_labels data st
  = (Ok tt,
     MkStore (store_labels data (finditer HardwareRe.Label data)
                           (kmonad_aliases st))
             (stdout st)).
Proof. unfold import_labels. apply import_labels_loop. Qed.

Lemma store_labels_other (data : str) (ms : list Match)
      (tbl : PyDict.dict str) (n : str) :
  (forall m, In m ms -> text data m "name" <> n) ->
  PyDict.get n (store_labels data ms tbl) = PyDict.get n tbl.
Proof.
  revert tbl. induction ms as [|m ms IH]; intros tbl Hne; [reflexivity|].
  unfold store_labels in *. simpl. rewrite IH.
  - apply PyDict.get_set_other. intros ->. now apply (Hne m); [left|].
  - intros m' Hm'. apply Hne. now right.
Qed.

Lemma store_labels_last (data : str) (before after : list Match) (m : Match)
      (tbl : PyDict.dict str) :
  (forall m', In m' after -> text data m' "name" <> text data m "name") ->
  PyDict.get (text data m "name")
             (store_labels data (before ++ m :: after) tbl)
  = Some (text data m "data").
Proof.
  intros Hlast. unfold store_labels. rewrite fold_left_app. simpl.
  fold (store_labels data before tbl).
  fold (store_labels data after
          (PyDict.set (text data m "name") (text data m "data")
                      (store_labels data before tbl))).
  rewrite store_labels_other by exact Hlast.
  apply PyDict.get_set_same.
Qed.

Section Labels.

Variable isalpha_beyond_ascii : char -> bool.
Variable upper_beyond_ascii : char -> str.

Local Abbreviation translate' :=
  (translate isalpha_beyond_ascii upper_beyond_ascii).
Local Abbreviation plain_rules' :=
  (plain_rules isalpha_beyond_ascii upper_beyond_ascii).

Lemma plain_rules_long (v : str) :
  length v <> 1 -> v <> u "XX" -> plain_rules' v = v.
Proof.
  intros Hlen Hxx. unfold plain_rules.
  apply Nat.eqb_neq in Hlen. rewrite Hlen. simpl.
  apply PyStr.eqb_neq in Hxx. now rewrite Hxx.
Qed.

(** C7, as amended.  When the hardware section declares a label for a
    name more than once, importing the labels leaves the text of the
    last of these declarations in the alias table, whatever the earlier
    ones and the table held for that name.  A later [translate] of the
    name starts from that text and applies its single-letter and [XX]
    rules to it; it returns the text itself when the text is neither one
    character long nor [XX]. *)
Theorem later_label_wins (data : str) (st : Store)
        (before after : list Match) (m : Match) :
  finditer HardwareRe.Label data = before ++ m :: after ->
  (forall m', In m' after -> text data m' "name" <> text data m "name") ->
  exists st',
    import_labels data st = (Ok tt, st')
    /\ stdout st' = stdout st
    /\ PyDict.get (text data m "name") (kmonad_aliases st')
       = Some (text data m "data")
    /\ translate' (text data m "name") st'
       = (Ok (plain_rules' (text data m "data")), st')
    /\ (length (text data m "data") <> 1 ->
        text data m "data" <> u "XX" ->
        translate' (text data m "name") st'
        = (Ok (text data m "data"), st')).
Proof.
  intros Hms Hlast. eexists. split; [apply import_labels_eq|].
  rewrite Hms. simpl.
  pose proof (store_labels_last data before after m (kmonad_aliases st) Hlast)
    as Hget.
  split; [reflexivity|]. split; [exact Hget|].
  assert (Ht : forall st',
             PyDict.get (text data m "name") (kmonad_aliases st')
             = Some (text data m "data") ->
             translate' (text data m "name") st'
             = (Ok (plain_rules' (text data m "data")), st')).
  { intros st' H. rewrite translate_eq. unfold PyDict.get_default.
    now rewrite H. }
  split.
  - now apply Ht.
  - intros Hlen Hxx. rewrite Ht by exact Hget.
    now rewrite plain_rules_long.
Qed.

End Labels.

(** Two declarations for [esc], the later one several characters
    long. *)
Definition sample_labels : str :=
  u "(label esc Esc) (label tab Tab) (label esc Escape)".

(** Two declarations for [foo], the later one a single letter. *)
Definition sample_labels_letter : str := u "(label foo bar) (label foo x)".

Definition after_import (data : str) : Store :=
  snd (import_labels data store0).

Lemma later_label_wins_witness :
  import_labels sample_labels store0 = (Ok tt, after_import sample_labels)
  /\ map (fun m => (text sample_labels m "name",
                    text sample_labels m "data"))
         (finditer HardwareRe.Label sample_labels)
     = [ (u "esc", u "Esc"); (u "tab", u "Tab"); (u "esc", u "Escape") ]
  /\ translate ascii_letters_only ascii_upper_only (u "esc")
               (after_import sample_labels)
     = (Ok (u "Escape"), after_import sample_labels).
Proof.
  split; [vm_compute; reflexivity|]. split; [vm_compute; reflexivity|].
  set (ms := finditer HardwareRe.Label sample_labels).
  assert (Hms : ms = firstn 2 ms ++ nth 2 ms (MkMatch 0 0 [] (Cursor [] []))
                     :: [])
    by (vm_compute; reflexivity).
  destruct (later_label_wins ascii_letters_only ascii_upper_only
              sample_labels store0 _ _ _ Hms)
    as (st' & Himp & _ & _ & _ & Htr).
  - intros m' [].
  - assert (st' = after_import sample_labels) as ->
      by (unfold after_import; now rewrite Himp).
    apply Htr; vm_compute; discriminate.
Defined.

(** C7, as stated, fails in its last part: what [translate] returns for
    the name is not always the later text.  The later text [x] is in the
    table, and [translate] returns [X]. *)
Lemma later_label_not_returned :
  map (fun m => (text sample_labels_letter m "name",
                 text sample_labels_letter m "data"))
      (finditer HardwareRe.Label sample_labels_letter)
  = [ (u "foo", u "bar"); (u "foo", u "x") ]
  /\ PyDict.get (u "foo")
                (kmonad_aliases (after_import sample_labels_letter))
     = Some (u "x")
  /\ fst (translate ascii_letters_only ascii_upper_only (u "foo")
                    (after_import sample_labels_letter))
     = Ok (u "X")
  /\ fst (translate ascii_letters_only ascii_upper_only (u "foo")
                    (after_import sample_labels_letter))
     <> Ok (u "x").
Proof. vm_compute. repeat split. discriminate. Qed.

(* ===================================================================== *)
(** ** Patterns: where a body ends                                        *)
(* ===================================================================== *)




Section Walk.

Variable A : Type.





End Walk.























(* ===================================================================== *)
(** ** Rendering                                                          *)
(* ===================================================================== *)

(** A computation that leaves the alias table and the console as it
    found them. *)
Definition readonly {A} (m : M A) : Prop := forall st, snd (m st) = st.

Lemma readonly_ret {A} (a : A) : readonly (ret a).
Proof. now intros st. Qed.

Lemma readonly_raise {A} (e : exn) : readonly (raise (A:=A) e).
Proof. now intros st. Qed.

Lemma readonly_lift {A} (r : result A) : readonly (lift r).
Proof. now intros st. Qed.

Lemma readonly_aliases : readonly aliases.
Proof. now intros st. Qed.

Lemma readonly_bind {A B} (m : M A) (f : A -> M B) :
  readonly m -> (forall a, readonly (f a)) -> readonly (bind m f).
Proof.
  intros Hm Hf st. unfold bind. specialize (Hm st).
  destruct (m st) as [[a|e] st1]; simpl in Hm; subst st1.
  - apply Hf.
  - reflexivity.
Qed.

Lemma readonly_mapM {X Y} (f : X -> M Y) (xs : list X) :
  (forall x, readonly (f x)) -> readonly (mapM f xs).
Proof.
  intros Hf. induction xs as [|x xs IH]; simpl.
  - apply readonly_ret.
  - apply readonly_bind; [apply Hf|]. intros y.
    apply readonly_bind; [exact IH|]. intros ys. apply readonly_ret.
Qed.

Lemma readonly_foldM {A X} (f : A -> X -> M A) (xs : list X) (a : A) :
  (forall a x, readonly (f a x)) -> readonly (foldM f xs a).
Proof.
  intros Hf. revert a. induction xs as [|x xs IH]; intros a; simpl.
  - apply readonly_ret.
  - apply readonly_bind; [apply Hf | exact IH].
Qed.

Create HintDb readonly.
#[local] Hint Resolve readonly_ret readonly_raise readonly_lift
  readonly_aliases : readonly.

Section Rendering.

Variable isalpha_beyond_ascii : char -> bool.
Variable upper_beyond_ascii : char -> str.

Local Abbreviation translate' :=
  (translate isalpha_beyond_ascii upper_beyond_ascii).
Local Abbreviation label' :=
  (label isalpha_beyond_ascii upper_beyond_ascii).
Local Abbreviation build' :=
  (build isalpha_beyond_ascii upper_beyond_ascii).
Local Abbreviation KMonadConfig_init' :=
  (KMonadConfig_init isalpha_beyond_ascii upper_beyond_ascii).

Lemma readonly_translate (key : str) : readonly (translate' key).
Proof. intros st. now rewrite translate_eq. Qed.

Lemma readonly_label (self : KeyCap) (keys : PyDict.dict (option str)) :
  readonly (label' self keys).
Proof.
  unfold label. apply readonly_bind; [|auto with readonly].
  apply readonly_foldM. intros lab [layer [[|ch key]|]]; simpl;
    auto with readonly.
  apply readonly_bind; [apply readonly_translate|]. intros text.
  destruct (PyDict.get layer (layermap self)); [|auto with readonly].
  destruct (_ || _); auto with readonly.
Qed.

Lemma readonly_build (layers : PyDict.dict KMonadLayer)
      (hardware : HardwareLayout) (name : str) :
  readonly (build' layers hardware name).
Proof.
  unfold build. destruct (PyDict.get (u "defsrc") layers);
    [|auto with readonly].
  apply readonly_bind; [auto with readonly|]. intros colors.
  apply readonly_bind; [|auto with readonly].
  apply readonly_mapM. intros r.
  apply readonly_bind; [|auto with readonly].
  apply readonly_mapM. intros [opt|kr kc kk]; [auto with readonly|].
  apply readonly_label.
Qed.

(** C9.  Rendering reads the model, the alias table and nothing else,
    and changes none of them: [build] returns the store it was given,
    so a second call right after the first gives the same outcome,
    character for character.  For a model that [KMonadConfig.__init__]
    has built, rendering it again gives the layout it holds. *)
Theorem rendering_deterministic :
  (forall (cfg : KMonadConfig) (st : Store),
      let first_run := build' (layers cfg) (hardware cfg) (name cfg) st in
      snd first_run = st
      /\ build' (layers cfg) (hardware cfg) (name cfg) (snd first_run)
         = first_run)
  /\ (forall (file text : str) (st st' : Store) (cfg : KMonadConfig),
        KMonadConfig_init' file text st = (Ok cfg, st') ->
        exists out,
          layout cfg = Some out
          /\ build' (layers cfg) (hardware cfg) (name cfg) st'
             = (Ok out, st')).
Proof.
  split.
  - intros cfg st first_run.
    assert (H : snd first_run = st) by apply readonly_build.
    split; [exact H | now rewrite H].
  - intros file text st st' cfg. unfold KMonadConfig_init.
    destruct (fold_left _ _ _) as [ls fst_layer].
    unfold bind.
    destruct (HardwareLayout_init text st) as [[hw|e] st1]; [|discriminate].
    pose proof (readonly_build ls hw file st1) as Hro.
    destruct (build' ls hw file st1) as [[out|e] st2] eqn:Hb;
      [|discriminate].
    simpl in Hro. subst st2. unfold ret. intros [= <- <-]. simpl.
    exists out. split; [reflexivity | exact Hb].
Qed.

End Rendering.

(** *** An input rendered end to end *)

(** [needle in hay] *)
Fixpoint starts_with (needle hay : str) : bool :=
  match needle, hay with
  | [], _ => true
  | x :: needle', y :: hay' => chr_eqb x y && starts_with needle' hay'
  | _ :: _, [] => false
  end.

Fixpoint contains (needle hay : str) : bool :=
  starts_with needle hay
  || match hay with
     | [] => false
     | _ :: hay' => contains needle hay'
     end.

(** The base layer [a b c] over three empty rows, the overlay [nav]
    with [F1 F2 F3], and a hardware section whose keycap grid has [a] in
    cell (0,0) and [b] in cell (0,1) and which declares no colors. *)
Definition sample_config : str :=
  lines [ "(defsrc a b c"; "_ _ _"; "_ _ _"; "_ _ _)";
          "(deflayer nav F1 F2 F3)";
          "<hardware-layout>";
          "(keycap a b _"; "_ _ _"; "_ _ _"; "_ _ _)";
          "</hardware-layout>" ]%string.

Definition sample_file : str := u "/home/user/keyboard.kbd".

Definition sample_run : result KMonadConfig * Store :=
  KMonadConfig_init ascii_letters_only ascii_upper_only sample_file
                    sample_config store0.

(** What the run prints as the layout. *)
Definition sample_layout : str :=
  let empty_row := u "[" ++ join (u ",") [quoted []; quoted []; quoted []]
                     ++ u "]" in
  join (u "," ++ [newline])
       [ u "[{a:0, y:-1, t:"
           ++ quoted (u "#000000\n\n\n\n\n\n\n\n#000000") ++ u "}]";
         empty_row; empty_row; empty_row; empty_row;
         u "[{f:4,w:20,h:3,d:true,t:" ++ quoted (u "#333333") ++ u "},"
           ++ quoted (sample_file ++ u "<br /><br />") ++ u "]" ].

Definition layout_of (run : result KMonadConfig * Store) : option str :=
  match fst run with
  | Ok cfg => layout cfg
  | Raise _ => None
  end.

(** C2, as amended.  For that input the run succeeds with the missing
    colors warning; the header entry carries [#000000] in slots 0 and 8,
    the slots of the two names in the keycap grid; each of the four row
    groups holds three keys whose label is the empty literal; and neither
    [c] nor [F3] appears in any label.  No label holds [A], [F1], [B] or
    [F2] either: the grid names no layer of the input ([defsrc], [nav]),
    so no layer has a slot. *)
Theorem sample_config_rendering :
  layout_of sample_run = Some sample_layout
  /\ stdout (snd sample_run) = [msg_colors_warning]
  /\ contains (u "#000000\n\n\n\n\n\n\n\n#000000") sample_layout = true
  /\ contains (u "F3") sample_layout = false
  /\ contains (u "C") sample_layout = false
  /\ contains (u "F1") sample_layout = false
  /\ contains (u "F2") sample_layout = false
  /\ contains (u "A") sample_layout = false
  /\ contains (u "B") sample_layout = false.
Proof. vm_compute. repeat split. Qed.

(** C2, as stated, fails: the rendered output of that input has no key
    whose label holds [A\nF1], nor one that holds [B\nF2]. *)
Lemma sample_config_has_no_labels :
  layout_of sample_run = Some sample_layout
  /\ contains (quoted (u "A\nF1")) sample_layout = false
  /\ contains (u "A\nF1") sample_layout = false
  /\ contains (u "B\nF2") sample_layout = false
  /\ ~ (exists out,
          layout_of sample_run = Some out
          /\ contains (u "A\nF1") out = true
          /\ contains (u "B\nF2") out = true).
Proof.
  assert (H : layout_of sample_run = Some sample_layout)
    by (vm_compute; reflexivity).
  split; [exact H|]. repeat split; try (vm_compute; reflexivity).
  intros (out & Hout & Ha & _). rewrite H in Hout. injection Hout as <-.
  vm_compute in Ha. discriminate.
Qed.

(** The same layers under a grid that names them: [defsrc] in cell (0,0)
    and [nav] in cell (2,0), slots 0 and 1. *)
Definition sample_config_named : str :=
  lines [ "(defsrc a b c"; "_ _ _"; "_ _ _"; "_ _ _)";
          "(deflayer nav F1 F2 F3)";
          "<hardware-layout>";
          "(keycap defsrc _ _"; "_ _ _"; "nav _ _"; "_ _ _)";
          "</hardware-layout>" ]%string.

Example sample_config_named_rendering :
  option_map
    (contains (u "[" ++ join (u ",") [quoted (u "A\nF1"); quoted (u "B\nF2");
                                      quoted (u "C\nF3")] ++ u "]"))
    (layout_of (KMonadConfig_init ascii_letters_only ascii_upper_only
                                  sample_file sample_config_named store0))
  = Some true.
Proof. vm_compute. reflexivity. Qed.

(* ===================================================================== *)
(** ** Further properties of the program                                  *)
(* ===================================================================== *)

(** *** Position map *)

(** X1.  [label_pos] is defined exactly on the twelve positions of a grid
    of four rows of three, where it is a one-to-one correspondence with
    the slots 0 to 11; for any other position the subscript raises
    [KeyError]. *)
Theorem label_pos_bijection :
  (forall r c,
      r < 4 -> c < 3 -> exists p, label_pos r c = Ok p /\ p < 12)
  /\ (forall r c, 4 <= r \/ 3 <= c -> label_pos r c = Raise KeyError)
  /\ (forall r c r' c' p,
        label_pos r c = Ok p -> label_pos r' c' = Ok p ->
        r = r' /\ c = c')
  /\ (forall p, p < 12 -> exists r c, r < 4 /\ c < 3 /\ label_pos r c = Ok p).
Proof.
  assert (Hdom : forall r c,
             (r < 4 /\ c < 3 /\ In (r, c) positions)
             \/ ((4 <= r \/ 3 <= c) /\ label_pos r c = Raise KeyError)).
  { intros r c.
    destruct r as [|[|[|[|r]]]]; destruct c as [|[|[|c]]];
      try (left; repeat split; try lia; simpl; tauto);
      right; (split; [lia | reflexivity]). }
  split; [|split; [|split]].
  - intros r c Hr Hc. exists (slot_of r c).
    destruct (Hdom r c) as [(_ & _ & Hin)|[Hout _]]; [|lia].
    now apply label_pos_total.
  - intros r c Hout. destruct (Hdom r c) as [(Hr & Hc & _)|[_ H]];
      [lia | exact H].
  - intros r c r' c' p H H'.
    destruct (Hdom r c) as [(_ & _ & Hin)|[_ E]]; [|congruence].
    destruct (Hdom r' c') as [(_ & _ & Hin')|[_ E']]; [|congruence].
    assert (Hpos : (r, c) = (r', c')).
    { apply label_pos_injective; auto. unfold slot_of. now rewrite H, H'. }
    now injection Hpos.
  - intros p Hp.
    assert (Hall : forall q, In q (map (fun rc => slot_of (fst rc) (snd rc))
                                      positions) ->
                   exists r c, r < 4 /\ c < 3 /\ label_pos r c = Ok q).
    { intros q Hq. apply in_map_iff in Hq as ([r c] & <- & Hin).
      exists r, c. simpl.
      destruct (Hdom r c) as [(Hr & Hc & _)|[_ E]].
      - repeat split; auto. now apply label_pos_total.
      - destruct (@label_pos_total r c Hin) as [E' _]. congruence. }
    apply Hall.
    do 12 (destruct p as [|p]; [vm_compute; tauto|]).
    lia.
Qed.

(** *** Keycap model: what construction guarantees *)

Lemma dict_In_get {V} (d : PyDict.dict V) (k : str) (v : V) :
  NoDup (PyDict.keys d) -> In (k, v) d -> PyDict.get k d = Some v.
Proof.
  induction d as [|[k' v'] d IH]; simpl; [contradiction|].
  intros Hnd Hin. inversion Hnd as [|? ? Hnot Hnd']; subst.
  destruct Hin as [Hin|Hin].
  - injection Hin as -> ->. now rewrite PyStr.eqb_refl.
  - destruct (PyStr.eqb_spec k k') as [->|Hne]; [|now apply IH].
    exfalso. apply Hnot. change k' with (fst (k', v)).
    now apply in_map.
Qed.

Lemma NoDup_map_inj_in {X Y} (f : X -> Y) (l : list X) :
  NoDup l ->
  (forall x y, In x l -> In y l -> f x = f y -> x = y) ->
  NoDup (map f l).
Proof.
  induction l as [|x l IH]; simpl; intros Hnd Hinj; [constructor|].
  inversion Hnd as [|? ? Hnot Hnd']; subst. constructor.
  - intros Hin. apply in_map_iff in Hin as (y & Hy & Hin).
    assert (y = x) by (apply Hinj; auto). now subst.
  - apply IH; auto.
Qed.

Lemma place_all_NoDup (l : list (str * nat * str)) maps :
  NoDup (PyDict.keys (fst maps)) ->
  NoDup (PyDict.keys (fst (place_all l maps))).
Proof.
  revert maps. induction l as [|e l IH]; intros maps Hnd; [exact Hnd|].
  unfold place_all in *. simpl. apply IH. unfold put.
  destruct (negb _); simpl; [now apply PyDict.set_NoDup | exact Hnd].
Qed.

Lemma place_all_same_keys (g colors : list (list str)) (t : str) :
  PyDict.get t (layermap (keycap_of g colors)) = None
  <-> PyDict.get t (colormap (keycap_of g colors)) = None.
Proof.
  unfold keycap_of. simpl.
  destruct (PyStr.eqb_spec t underscore) as [->|Ht].
  - now rewrite place_all_underscore, place_all_underscore_color.
  - destruct (place_all_get (placements g colors) ([], []) Ht) as [H1 H2].
    rewrite H1, H2.
    destruct (find (tok_is t) (rev (placements g colors)));
      split; intros H; (discriminate || reflexivity).
Qed.

Lemma KeyCap_init_store (data : str) (st st' : Store) (r : result KeyCap) :
  KeyCap_init data st = (r, st') -> st' = st \/ st' = warned st.
Proof.
  rewrite KeyCap_init_eq, keycap_rows_eq.
  destruct (declared KeyCapRe.Pattern data) as [g|];
    [destruct (bad_shape g)|]; try (intros [= _ <-]; now left).
  rewrite keycap_colors_eq.
  destruct (declared KeyCapRe.Colors data) as [cs|];
    [destruct (bad_shape cs)|].
  - intros [= _ <-]; now left.
  - destruct (keycap_maps g cs); intros [= _ <-]; now left.
  - destruct (keycap_maps g default_colors); intros [= _ <-]; now right.
Qed.

(** X2.  Every keycap that construction returns has a grid of exactly
    four rows of three cells; its two maps have the same names as keys,
    no name twice, and never the empty marker; every recorded slot is
    below twelve and belongs to a cell that holds the name; no two names
    share a slot.  Construction leaves the alias table alone and prints
    at most the missing-colors warning. *)
Theorem KeyCap_init_invariant (data : str) (st st' : Store) (kc : KeyCap) :
  KeyCap_init data st = (Ok kc, st') ->
  (length (rows kc) = 4 /\ Forall (fun r => length r = 3) (rows kc))
  /\ NoDup (PyDict.keys (layermap kc))
  /\ (forall t, PyDict.get t (layermap kc) = None
                <-> PyDict.get t (colormap kc) = None)
  /\ PyDict.get underscore (layermap kc) = None
  /\ (forall t p,
        PyDict.get t (layermap kc) = Some p ->
        p < 12
        /\ exists r c, In (r, c, t) (cells (rows kc))
                       /\ label_pos r c = Ok p)
  /\ (forall t1 t2 p,
        PyDict.get t1 (layermap kc) = Some p ->
        PyDict.get t2 (layermap kc) = Some p -> t1 = t2)
  /\ kmonad_aliases st' = kmonad_aliases st
  /\ (stdout st' = stdout st
      \/ stdout st' = stdout st ++ [msg_colors_warning]).
Proof.
  intros Hinit.
  assert (Hstore : kmonad_aliases st' = kmonad_aliases st
                   /\ (stdout st' = stdout st
                       \/ stdout st' = stdout st ++ [msg_colors_warning])).
  { destruct (KeyCap_init_store data st Hinit) as [->| ->];
      (split; [reflexivity|]); [now left | now right]. }
  destruct (KeyCap_init_inv data st Hinit)
    as (g & colors & _ & _ & Hg & _ & ->).
  split; [now apply bad_shape_spec|].
  split; [unfold keycap_of; simpl; apply place_all_NoDup; constructor|].
  split; [apply place_all_same_keys|].
  split; [unfold keycap_of; simpl; apply place_all_underscore|].
  split.
  { intros t p Hp.
    destruct (layermap_cell g colors Hg _ Hp) as (_ & r & c & Hx & E & L).
    split; [exact L | now exists r, c]. }
  split; [intros t1 t2 p; apply (layermap_injective g colors Hg)|].
  exact Hstore.
Qed.

Lemma KeyCap_init_invariant_witness :
  exists kc,
    KeyCap_init sample_twice store0 = (Ok kc, store0)
    /\ length (rows kc) = 4
    /\ PyDict.keys (layermap kc) = [u "a"; u "b"]
    /\ PyDict.get underscore (layermap kc) = None.
Proof.
  set (kc := match fst (KeyCap_init sample_twice store0) with
             | Ok kc => kc
             | Raise _ => MkKeyCap [] [] []
             end).
  assert (Hinit : KeyCap_init sample_twice store0 = (Ok kc, store0))
    by (vm_compute; reflexivity).
  destruct (KeyCap_init_invariant sample_twice store0 Hinit)
    as ((Hlen & _) & _ & _ & Hus & _).
  exists kc. split; [exact Hinit|]. split; [exact Hlen|].
  split; [vm_compute; reflexivity | exact Hus].
Defined.

(** *** Keycap model: [get_colors] *)

Definition color_writes (lm : PyDict.dict nat) (cm : PyDict.dict str)
  : list (nat * str) :=
  map (fun item => (snd item, PyDict.get_default (fst item) [] cm)) lm.

Lemma get_colors_loop (lm : PyDict.dict nat) (cm : PyDict.dict str)
      (lab : list str) :
  (forall item, In item lm -> snd item < 12) ->
  length lab = 12 ->
  fold_result
    (fun lab item =>
       setitem lab (snd item) (PyDict.get_default (fst item) [] cm))
    lm lab
  = Ok (write_all (color_writes lm cm) lab).
Proof.
  revert lab. induction lm as [|item lm IH]; intros lab Hlt Hlen;
    [reflexivity|].
  cbn [fold_result].
  assert (Hs : forall v,
             setitem lab (snd item) v = Ok (update lab (snd item) v)).
  { intros v. unfold setitem.
    destruct (Nat.ltb_spec (snd item) (length lab)) as [_|Hge];
      [reflexivity|].
    specialize (Hlt item (or_introl eq_refl)). lia. }
  rewrite Hs, IH.
  - reflexivity.
  - intros it Hit. apply Hlt. now right.
  - now rewrite update_length.
Qed.

(** X3.  For a keycap that construction returned, [get_colors] does not
    raise.  Its literal joins twelve lines: the line of a slot that some
    name of the grid is mapped to is the colour recorded for that name,
    and every other line is empty. *)
Theorem get_colors_slots (data : str) (st st' : Store) (kc : KeyCap) :
  KeyCap_init data st = (Ok kc, st') ->
  exists lab,
    get_colors kc = Ok (quoted (rstrip (u "\n") (join (u "\n") lab)))
    /\ length lab = 12
    /\ (forall t p,
          PyDict.get t (layermap kc) = Some p ->
          exists color,
            PyDict.get t (colormap kc) = Some color
            /\ nth_error lab p = Some color)
    /\ (forall p,
          p < 12 ->
          (forall t, PyDict.get t (layermap kc) <> Some p) ->
          nth_error lab p = Some []).
Proof.
  intros Hinit.
  destruct (KeyCap_init_inv data st Hinit)
    as (g & colors & _ & _ & Hg & _ & ->).
  set (kc := keycap_of g colors).
  assert (Hnd : NoDup (PyDict.keys (layermap kc)))
    by (unfold kc, keycap_of; simpl; apply place_all_NoDup; constructor).
  assert (Hitem : forall item, In item (layermap kc) ->
                               PyDict.get (fst item) (layermap kc)
                               = Some (snd item)).
  { intros [t p] Hin. now apply dict_In_get. }
  assert (Hlt : forall item, In item (layermap kc) -> snd item < 12).
  { intros item Hin.
    now destruct (layermap_cell g colors Hg _ (Hitem item Hin))
      as (_ & r & c & _ & _ & L). }
  set (ws := color_writes (layermap kc) (colormap kc)).
  assert (Hws : NoDup (map fst ws)).
  { unfold ws, color_writes. rewrite map_map. simpl.
    apply NoDup_map_inj_in.
    - apply (NoDup_map_inv fst). exact Hnd.
    - intros [t1 p1] [t2 p2] H1 H2 E. simpl in E. subst p2.
      f_equal.
      exact (layermap_injective g colors Hg _ _ (Hitem _ H1) (Hitem _ H2)). }
  assert (Hwlt : forall w, In w ws -> fst w < length empty_lab).
  { intros w Hw. apply in_map_iff in Hw as (item & <- & Hin).
    exact (Hlt item Hin). }
  exists (write_all ws empty_lab).
  split; [|split; [|split]].
  - unfold get_colors. now rewrite get_colors_loop.
  - now rewrite write_all_length.
  - intros t p Hp.
    destruct (PyDict.get t (colormap kc)) as [color|] eqn:Hc.
    + exists color. split; [reflexivity|].
      rewrite (write_all_nth ws empty_lab p Hwlt).
      rewrite (find_unique_fst (rev ws) p color).
      * reflexivity.
      * rewrite map_rev. now apply NoDup_rev.
      * apply -> in_rev. apply in_map_iff. exists (t, p). split.
        -- exact (f_equal (fun o => (p, match o with
                                        | Some v => v
                                        | None => []
                                        end)) Hc).
        -- now apply PyDict.get_In.
    + apply (place_all_same_keys g colors) in Hc. fold kc in Hc. congruence.
  - intros p Hp Hfree.
    rewrite (write_all_nth ws empty_lab p Hwlt).
    rewrite find_none_iff.
    + now do 12 (destruct p as [|p]; [reflexivity|]); simpl in Hp; lia.
    + intros w Hw. apply in_rev, in_map_iff in Hw as (item & <- & Hin).
      simpl. apply Nat.eqb_neq. intros E. subst p.
      exact (Hfree _ (Hitem item Hin)).
Qed.

Lemma get_colors_slots_witness :
  get_colors sample_kc
  = Ok (quoted (u "#000000\n\n\n\n\n\n\n\n#000000")).
Proof.
  assert (Hinit : KeyCap_init sample_keycap store0
                  = (Ok sample_kc, warned store0))
    by (vm_compute; reflexivity).
  destruct (get_colors_slots sample_keycap store0 Hinit)
    as (lab & Hlit & _).
  rewrite Hlit. vm_compute in Hlit. injection Hlit as Hlit.
  vm_compute. now rewrite Hlit.
Defined.

(** *** Keycap model: keys without a visible label *)

Section EmptyLabel.

Variable isalpha_beyond_ascii : char -> bool.
Variable upper_beyond_ascii : char -> str.

Local Abbreviation label' :=
  (label isalpha_beyond_ascii upper_beyond_ascii).
Local Abbreviation writes' :=
  (writes isalpha_beyond_ascii upper_beyond_ascii).

(** X4.  For a keycap that construction returned, a key none of whose
    layers with a token is named in the keycap grid gets the empty
    literal as its label, whatever the tokens are; so does a key that no
    layer binds.  The alias table is not changed. *)
Theorem label_without_named_layer (data : str) (st0 st0' : Store)
        (kc : KeyCap) (keys : PyDict.dict (option str)) (st : Store) :
  KeyCap_init data st0 = (Ok kc, st0') ->
  (forall layer tok,
      In (layer, Some tok) keys -> tok <> [] ->
      PyDict.get layer (layermap kc) = None) ->
  label' kc keys st = (Ok (quoted []), st).
Proof.
  intros Hinit Hnone.
  destruct (KeyCap_init_inv data st0 Hinit)
    as (g & colors & _ & _ & Hg & _ & ->).
  rewrite label_eq.
  - assert (Hw : writes' (layermap (keycap_of g colors)) st keys = []).
    { destruct (writes' (layermap (keycap_of g colors)) st keys)
        as [|w ws] eqn:E; [reflexivity|].
      assert (Hin : In w (writes' (layermap (keycap_of g colors)) st keys))
        by (rewrite E; now left).
      apply in_writes in Hin as (layer & tok & Hk & Hne & Hget & _).
      rewrite (Hnone layer tok Hk Hne) in Hget. discriminate. }
    rewrite Hw. reflexivity.
  - intros layer p Hp.
    now destruct (layermap_cell g colors Hg _ Hp) as (_ & r & c & _ & _ & L).
Qed.

End EmptyLabel.

Lemma label_without_named_layer_witness :
  label ascii_letters_only ascii_upper_only sample_kc sample_keys store0
  = (Ok (quoted []), store0).
Proof.
  assert (Hinit : KeyCap_init sample_keycap store0
                  = (Ok sample_kc, warned store0))
    by (vm_compute; reflexivity).
  apply (label_without_named_layer ascii_letters_only ascii_upper_only
           sample_keycap store0 sample_keys store0 Hinit).
  intros layer tok [H|[H|[]]] _; injection H as <- <-;
    vm_compute; reflexivity.
Defined.

(** *** Layer model: the tokens of a layer *)

Lemma split_aux_tokens (cur s : str) (w : str) :
  forallb (fun c => negb (isspace c)) cur = true ->
  In w (split_aux cur s) ->
  w <> [] /\ forallb (fun c => negb (isspace c)) w = true.
Proof.
  revert cur. induction s as [|c s IH]; intros cur Hcur; simpl.
  - destruct cur as [|x cur]; [contradiction|].
    intros [<-|[]]. split.
    + intros E. apply (f_equal (@length char)) in E.
      rewrite length_rev in E. discriminate.
    + rewrite forallb_forall in *. intros y Hy. apply Hcur.
      now apply in_rev.
  - destruct (isspace c) eqn:Ec.
    + destruct cur as [|x cur]; [now apply IH|].
      intros [<-|Hin]; [|now apply (IH [])]. split.
      * intros E. apply (f_equal (@length char)) in E.
        rewrite length_rev in E. discriminate.
      * rewrite forallb_forall in *. intros y Hy. apply Hcur.
        now apply in_rev.
    + apply IH. simpl. now rewrite Ec.
Qed.

Lemma getitem_int_In {X} (xs : list X) (i : Z) (x : X) :
  getitem_int xs i = Ok x -> In x xs.
Proof.
  unfold getitem_int, getitem. intros H.
  destruct (0 <=? i)%Z.
  - destruct (nth_error xs (Z.to_nat i)) eqn:E; [|discriminate].
    injection H as <-. eapply nth_error_In; eauto.
  - destruct (0 <=? i + Z.of_nat (length xs))%Z; [|discriminate].
    destruct (nth_error xs (Z.to_nat (i + Z.of_nat (length xs)))) eqn:E;
      [|discriminate].
    injection H as <-. eapply nth_error_In; eauto.
Qed.

(** X5.  The layer built from a section body has a non-empty name, which
    is [defsrc] when the section gave none.  Whatever token it returns
    for a position is one of the words of the body: it is not empty,
    holds no white space and is not the empty marker. *)
Theorem KMonadLayer_tokens (name : option str) (data : str) :
  layer_name (KMonadLayer_init name data) <> []
  /\ (name = None -> layer_name (KMonadLayer_init name data) = u "defsrc")
  /\ forall row col v,
      KMonadLayer_call (KMonadLayer_init name data) row col = Some v ->
      v <> [] /\ v <> underscore
      /\ forallb (fun c => negb (isspace c)) v = true
      /\ exists line, In line (splitlines data) /\ In v (split line).
Proof.
  split; [|split].
  - destruct name as [[|c n]|]; simpl; discriminate.
  - now intros ->.
  - intros row col v. unfold KMonadLayer_call. cbn [KMonadLayer_init layer_rows].
    destruct (getitem_int (grid_of data) row) as [r|e] eqn:Er; [|discriminate].
    destruct (getitem_int r col) as [w|e] eqn:Ec; [|discriminate].
    destruct (PyStr.eqb_spec w underscore) as [|Hne]; [discriminate|].
    intros [= <-].
    apply getitem_int_In in Er, Ec.
    unfold grid_of in Er. apply in_map_iff in Er as (line & <- & Hline).
    destruct (split_aux_tokens [] line w eq_refl Ec) as [H1 H2].
    repeat split; auto. now exists line.
Qed.

(** *** Hardware layout: description, labels, options *)

Lemma replace_removes (old : char) (new s : str) :
  ~ In old new -> ~ In old (replace old new s).
Proof.
  intros Hnew Hin. unfold replace in Hin.
  apply in_flat_map in Hin as (x & _ & Hx).
  unfold chr_eqb in Hx. destruct (N.eqb_spec x old) as [E|Hne].
  - now apply Hnew.
  - destruct Hx as [E|[]]. now apply Hne.
Qed.

Lemma replace_absent (old : char) (new s : str) :
  ~ In old s -> replace old new s = s.
Proof.
  induction s as [|c s IH]; intros Hno; [reflexivity|].
  unfold replace in *. simpl. unfold chr_eqb at 1.
  destruct (N.eqb_spec c old) as [->|Hne].
  - exfalso. apply Hno. now left.
  - simpl. f_equal. apply IH. intros H. apply Hno. now right.
Qed.

(** The pieces of [s] between the occurrences of [c]. *)
Fixpoint pieces (c : char) (s : str) : list str :=
  match s with
  | [] => [[]]
  | x :: s' =>
    if chr_eqb x c then [] :: pieces c s'
    else match pieces c s' with
         | p :: ps => (x :: p) :: ps
         | [] => [[x]]
         end
  end.

Lemma pieces_not_nil (c : char) (s : str) : pieces c s <> [].
Proof.
  destruct s as [|x s]; simpl; [discriminate|].
  destruct (chr_eqb x c); [discriminate|].
  destruct (pieces c s); discriminate.
Qed.

Lemma join_cons (sep p : str) (ps : list str) :
  ps <> [] -> join sep (p :: ps) = p ++ sep ++ join sep ps.
Proof. destruct ps; [congruence | reflexivity]. Qed.

Lemma join_cons_char (sep : str) (x : char) (p : str) (ps : list str) :
  join sep ((x :: p) :: ps) = x :: join sep (p :: ps).
Proof. destruct ps; reflexivity. Qed.

(** The pieces joined by [c] give [s] back, and none holds [c]. *)
Lemma pieces_join (c : char) (s : str) :
  join [c] (pieces c s) = s
  /\ Forall (fun p => ~ In c p) (pieces c s).
Proof.
  induction s as [|x s [IHj IHf]]; simpl.
  - split; [reflexivity | repeat constructor; intros []].
  - unfold chr_eqb. destruct (N.eqb_spec x c) as [->|Hne].
    + split.
      * rewrite join_cons by apply pieces_not_nil. simpl. now rewrite IHj.
      * constructor; [intros [] | exact IHf].
    + destruct (pieces c s) as [|p ps] eqn:E;
        [now destruct (pieces_not_nil c s)|].
      split.
      * rewrite join_cons_char. now rewrite IHj.
      * inversion IHf as [|? ? Hp Hps]; subst. constructor; [|exact Hps].
        intros [H|H]; [now apply Hne | now apply Hp].
Qed.

(** Replacing [c] by [new] joins the same pieces by [new]. *)
Lemma replace_pieces (c : char) (new s : str) :
  replace c new s = join new (pieces c s).
Proof.
  induction s as [|x s IH]; [reflexivity|].
  unfold replace in *. simpl. rewrite IH.
  destruct (chr_eqb x c).
  - rewrite join_cons by apply pieces_not_nil. reflexivity.
  - destruct (pieces c s) as [|p ps] eqn:E;
      [now destruct (pieces_not_nil c s)|].
    now rewrite join_cons_char.
Qed.

(** X6.  The description of a hardware section is the declared text
    with each line feed replaced by the line-break marker: the lines of
    the text, which joined by line feeds give the text back, are joined
    by the marker instead.  So the description never holds a line feed,
    and it is the declared text itself when that has none.  It is empty
    when the section has no description declaration. *)
Theorem get_description_one_line (data : str) :
  ~ In newline (get_description data)
  /\ (search HardwareRe.Description data = None -> get_description data = [])
  /\ (forall m,
        search HardwareRe.Description data = Some m ->
        let declared_text := text data m "description" in
        get_description data
        = join (u "<br />") (pieces newline declared_text)
        /\ join [newline] (pieces newline declared_text) = declared_text
        /\ Forall (fun line => ~ In newline line)
                  (pieces newline declared_text)
        /\ (~ In newline declared_text ->
            get_description data = declared_text)).
Proof.
  unfold get_description. split; [|split].
  - destruct (search HardwareRe.Description data); [|intros []].
    apply replace_removes. vm_compute. intuition discriminate.
  - now intros ->.
  - intros m Hm. rewrite Hm. cbv zeta.
    destruct (pieces_join newline (text data m "description")) as [Hj Hf].
    split; [apply replace_pieces|]. split; [exact Hj|].
    split; [exact Hf|]. intros Hno. now apply replace_absent.
Qed.

Example get_description_run :
  get_description
    (lines [ "(description Left hand"; "thumb cluster)" ]%string)
  = u "Left hand<br />thumb cluster".
Proof. vm_compute. reflexivity. Qed.

(** X7.  Importing the labels never fails and prints nothing; a name that
    no declaration of the section names keeps the entry it had, and no
    name that had an entry is left without one. *)
Theorem import_labels_frame (data : str) (st : Store) :
  exists st',
    import_labels data st = (Ok tt, st')
    /\ stdout st' = stdout st
    /\ (forall n,
          (forall m, In m (finditer HardwareRe.Label data) ->
                     text data m "name" <> n) ->
          PyDict.get n (kmonad_aliases st') = PyDict.get n (kmonad_aliases st))
    /\ (forall n,
          PyDict.get n (kmonad_aliases st) <> None ->
          PyDict.get n (kmonad_aliases st') <> None).
Proof.
  eexists. split; [apply import_labels_eq|]. simpl.
  split; [reflexivity|]. split.
  - intros n Hn. now apply store_labels_other.
  - intros n. generalize (kmonad_aliases st).
    induction (finditer HardwareRe.Label data) as [|m ms IH];
      intros tbl Hn; [exact Hn|].
    unfold store_labels in *. simpl. apply IH.
    destruct (PyStr.eqb_spec n (text data m "name")) as [->|Hne].
    + now rewrite PyDict.get_set_same.
    + now rewrite PyDict.get_set_other.
Qed.

(** X8.  The options index answers with the fragment of the last
    declaration for a name, and with nothing for a name that no
    declaration of the section names. *)
Theorem options_index (data : str) :
  (forall before after m,
      finditer Options.Pattern data = before ++ m :: after ->
      (forall m', In m' after ->
                  text data m' "name" <> text data m "name") ->
      Options.call (Options.init data) (text data m "name")
      = Some (text data m "data"))
  /\ (forall n,
        (forall m, In m (finditer Options.Pattern data) ->
                   text data m "name" <> n) ->
        Options.call (Options.init data) n = None).
Proof.
  unfold Options.call, Options.init.
  change (fold_left _ (finditer Options.Pattern data) [])
    with (store_labels data (finditer Options.Pattern data) []).
  split.
  - intros before after m -> Hlast. now apply store_labels_last.
  - intros n Hn. now rewrite store_labels_other.
Qed.

Definition sample_options : str :=
  u "(options tab {w:1.5}) (options ret {w:2}) (options tab {w:1.75,h:2})".

Lemma options_index_witness :
  Options.call (Options.init sample_options) (u "tab")
  = Some (u "{w:1.75,h:2}")
  /\ Options.call (Options.init sample_options) (u "esc") = None.
Proof.
  destruct (options_index sample_options) as [Hlast Hnone].
  set (ms := finditer Options.Pattern sample_options).
  assert (Hms : ms = firstn 2 ms ++ nth 2 ms (MkMatch 0 0 [] (Cursor [] []))
                     :: [])
    by (vm_compute; reflexivity).
  split.
  - apply (Hlast _ _ _ Hms). intros m' [].
  - apply Hnone. intros m Hm. fold ms in Hm. rewrite Hms in Hm.
    simpl in Hm. destruct Hm as [<-|[<-|[<-|[]]]]; vm_compute; discriminate.
Defined.

(** *** Hardware layout: construction *)

Lemma KeyCap_init_raise_store (data : str) (st st' : Store) (e : exn) :
  KeyCap_init data st = (Raise e, st') -> st' = st.
Proof.
  rewrite KeyCap_init_eq, keycap_rows_eq.
  destruct (declared KeyCapRe.Pattern data) as [g|];
    [destruct (bad_shape g) eqn:Hg|]; try (now intros [= _ <-]).
  rewrite keycap_colors_eq.
  destruct (declared KeyCapRe.Colors data) as [cs|];
    [destruct (bad_shape cs) eqn:Hcs|].
  - now intros [= _ <-].
  - destruct (keycap_maps g cs); now intros [= _ <-].
  - rewrite keycap_maps_ok by (assumption || reflexivity). discriminate.
Qed.

Lemma store_labels_keeps (data : str) (ms : list Match)
      (tbl : PyDict.dict str) (n : str) :
  PyDict.get n tbl <> None ->
  PyDict.get n (store_labels data ms tbl) <> None.
Proof.
  revert tbl. induction ms as [|m ms IH]; intros tbl Hn; [exact Hn|].
  unfold store_labels in *. simpl. apply IH.
  destruct (PyStr.eqb_spec n (text data m "name")) as [->|Hne].
  - now rewrite PyDict.get_set_same.
  - now rewrite PyDict.get_set_other.
Qed.

Lemma HardwareLayout_init_eq (data : str) (st : Store) :
  HardwareLayout_init data st
  = match search HardwareRe.Pattern data with
    | None => (Raise (RuntimeError msg_hardware_missing), st)
    | Some m =>
      let body := text data m "data" in
      match KeyCap_init body st with
      | (Raise e, st1) => (Raise e, st1)
      | (Ok kc, st1) =>
        (Ok (MkHardwareLayout kc (Options.init body) (get_description body)),
         MkStore (store_labels body (finditer HardwareRe.Label body)
                               (kmonad_aliases st1))
                 (stdout st1))
      end
    end.
Proof.
  unfold HardwareLayout_init.
  destruct (search HardwareRe.Pattern data) as [m|]; [|reflexivity].
  cbv zeta. unfold bind at 1.
  destruct (KeyCap_init (text data m "data") st) as [[kc|e] st1];
    [|reflexivity].
  unfold bind. now rewrite import_labels_eq.
Qed.

(** X9.  Without a hardware section construction aborts with the
    missing-section error.  Otherwise the keycap is constructed from the
    body of the section and its error, if any, is passed on; the labels
    are imported only after that.  So a construction that fails leaves
    the alias table and the console exactly as they were, and one that
    succeeds removes no entry from the alias table and prints nothing
    but the missing-colors warning. *)
Theorem HardwareLayout_init_outcome (data : str) (st : Store) :
  (search HardwareRe.Pattern data = None ->
     HardwareLayout_init data st
     = (Raise (RuntimeError msg_hardware_missing), st))
  /\ (forall m e st1,
        search HardwareRe.Pattern data = Some m ->
        KeyCap_init (text data m "data") st = (Raise e, st1) ->
        HardwareLayout_init data st = (Raise e, st))
  /\ (forall e st',
        HardwareLayout_init data st = (Raise e, st') -> st' = st)
  /\ (forall hw st',
        HardwareLayout_init data st = (Ok hw, st') ->
        (exists m st1,
            search HardwareRe.Pattern data = Some m
            /\ KeyCap_init (text data m "data") st = (Ok (keycap hw), st1)
            /\ options hw = Options.init (text data m "data")
            /\ description hw = get_description (text data m "data"))
        /\ (forall n, PyDict.get n (kmonad_aliases st) <> None ->
                      PyDict.get n (kmonad_aliases st') <> None)
        /\ (stdout st' = stdout st
            \/ stdout st' = stdout st ++ [msg_colors_warning])).
Proof.
  split; [|split; [|split]].
  - intros H. now rewrite HardwareLayout_init_eq, H.
  - intros m e st1 Hm Hk. rewrite HardwareLayout_init_eq, Hm. cbv zeta.
    rewrite Hk. now rewrite (KeyCap_init_raise_store _ _ Hk).
  - intros e st'. rewrite HardwareLayout_init_eq.
    destruct (search HardwareRe.Pattern data) as [m|];
      [|now intros [= _ <-]].
    cbv zeta.
    destruct (KeyCap_init (text data m "data") st) as [[kc|e'] st1] eqn:Hk;
      [discriminate|].
    intros [= _ <-]. exact (KeyCap_init_raise_store _ _ Hk).
  - intros hw st'. rewrite HardwareLayout_init_eq.
    destruct (search HardwareRe.Pattern data) as [m|]; [|discriminate].
    cbv zeta.
    destruct (KeyCap_init (text data m "data") st) as [[kc|e'] st1] eqn:Hk;
      [|discriminate].
    intros [= <- <-]. simpl.
    split; [exists m, st1; now repeat split|].
    destruct (KeyCap_init_store _ _ Hk) as [->| ->]; simpl.
    + split; [intros n; apply store_labels_keeps | now left].
    + split; [intros n; apply store_labels_keeps | now right].
Qed.

(** *** Rendering: when [build] succeeds *)

Lemma get_colors_ok (g colors : list (list str)) :
  bad_shape g = false ->
  exists lit, get_colors (keycap_of g colors) = Ok lit.
Proof.
  intros Hg. set (kc := keycap_of g colors).
  assert (Hnd : NoDup (PyDict.keys (layermap kc)))
    by (unfold kc, keycap_of; simpl; apply place_all_NoDup; constructor).
  eexists. unfold get_colors. rewrite get_colors_loop; [reflexivity| |reflexivity].
  intros [t p] Hin. simpl.
  pose proof (dict_In_get _ _ _ Hnd Hin) as Hp.
  now destruct (layermap_cell g colors Hg _ Hp) as (_ & r & c & _ & _ & L).
Qed.

Lemma mapM_ok {X Y} (f : X -> M Y) (xs : list X) (st : Store) :
  (forall x, In x xs -> exists y, f x st = (Ok y, st)) ->
  exists ys, mapM f xs st = (Ok ys, st) /\ length ys = length xs.
Proof.
  induction xs as [|x xs IH]; intros Hf.
  - now exists [].
  - destruct (Hf x (or_introl eq_refl)) as (y & Hy).
    destruct IH as (ys & Hys & Hlen); [intros z Hz; apply Hf; now right|].
    exists (y :: ys). simpl. unfold bind. rewrite Hy, Hys.
    split; [reflexivity | now rewrite Hlen].
Qed.

Lemma mapM_map {X Y} (f : X -> M Y) (g : X -> Y) (xs : list X)
      (st : Store) :
  (forall x, In x xs -> f x st = (Ok (g x), st)) ->
  mapM f xs st = (Ok (map g xs), st).
Proof.
  induction xs as [|x xs IH]; intros Hf; [reflexivity|].
  simpl. unfold bind. rewrite (Hf x (or_introl eq_refl)).
  rewrite IH by (intros z Hz; apply Hf; now right). reflexivity.
Qed.

(** The mapping from layer name to token that [KMonadConfig.keycap]
    hands to [label] for the key at a position. *)
Definition key_labels (layers : PyDict.dict KMonadLayer) (row col : nat)
  : PyDict.dict (option str) :=
  fold_left
    (fun labels layer =>
       PyDict.set (layer_name layer)
                  (KMonadLayer_call layer (Z.of_nat row) (Z.of_nat col))
                  labels)
    (PyDict.values layers) [].

(** The entries of one row of [defsrc]: for each column, left to right,
    the options fragment of the base token when the index has a
    non-empty one, then the key. *)
Definition row_entries (hardware : HardwareLayout) (rr : nat * list str)
  : list entry :=
  flat_map (fun ck =>
              match Options.call (options hardware) (snd ck) with
              | Some ((_ :: _) as opt) =>
                [Fragment opt; Key (fst rr) (fst ck) (snd ck)]
              | _ => [Key (fst rr) (fst ck) (snd ck)]
              end)
           (enumerate (snd rr)).

Section BuildOutcome.

Variable isalpha_beyond_ascii : char -> bool.
Variable upper_beyond_ascii : char -> str.

Local Abbreviation build' :=
  (build isalpha_beyond_ascii upper_beyond_ascii).
Local Abbreviation KMonadConfig_init' :=
  (KMonadConfig_init isalpha_beyond_ascii upper_beyond_ascii).

Definition footer (name : str) (hardware : HardwareLayout) : str :=
  u "[{f:4,w:20,h:3,d:true,t:" ++ quoted (u "#333333") ++ u "},"
    ++ quoted (name ++ u "<br /><br />" ++ description hardware)
    ++ u "]".

Lemma build_with_defsrc (layers : PyDict.dict KMonadLayer)
      (hardware : HardwareLayout) (name : str) (st : Store)
      (defsrc : KMonadLayer) (data : str) (st0 st0' : Store) :
  PyDict.get (u "defsrc") layers = Some defsrc ->
  KeyCap_init data st0 = (Ok (keycap hardware), st0') ->
  exists colors body,
    get_colors (keycap hardware) = Ok colors
    /\ length body = length (layer_rows defsrc)
    /\ build' layers hardware name st
       = (Ok (join (u "," ++ [newline])
                   ([u "[{a:0, y:-1, t:" ++ colors ++ u "}]"]
                      ++ body ++ [footer name hardware])),
          st).
Proof.
  intros Hd Hinit.
  destruct (KeyCap_init_inv data st0 Hinit)
    as (g & colors & _ & _ & Hg & _ & Hkc).
  destruct (get_colors_ok g colors Hg) as (lit & Hlit).
  rewrite <- Hkc in Hlit.
  assert (Hslots : forall layer p,
             PyDict.get layer (layermap (keycap hardware)) = Some p ->
             p < 12).
  { rewrite Hkc. intros layer p Hp.
    now destruct (layermap_cell g colors Hg _ Hp)
      as (_ & r & c & _ & _ & L). }
  unfold build. rewrite Hd. unfold bind at 1. unfold lift at 1.
  rewrite Hlit.
  match goal with
  | |- context [mapM ?f ?rows] =>
    destruct (@mapM_ok _ _ f rows st) as (body & Hbody & Hlen)
  end.
  { intros r _.
    match goal with
    | |- context [mapM ?f r] =>
      destruct (@mapM_ok _ _ f r st) as (row & Hrow & _)
    end.
    - intros [opt|kr kc kk] _; [now eexists|].
      eexists. unfold KMonadConfig_keycap. now apply label_eq.
    - eexists. unfold bind. rewrite Hrow. reflexivity. }
  exists lit, body. split; [reflexivity|]. split.
  + etransitivity; [exact Hlen|]. rewrite length_map. unfold enumerate.
    rewrite length_combine, length_seq. apply Nat.min_id.
  + unfold bind at 1. rewrite Hbody. reflexivity.
Qed.

(** The text of an entry: a fragment as it is, a key as the label
    literal of the tokens the layers bind at its position. *)
Definition entry_text (layers : PyDict.dict KMonadLayer)
           (hardware : HardwareLayout) (st : Store) (e : entry) : str :=
  match e with
  | Fragment opt => opt
  | Key r c _ =>
    rendered
      (write_all
         (writes isalpha_beyond_ascii upper_beyond_ascii
                 (layermap (keycap hardware)) st (key_labels layers r c))
         empty_lab)
  end.

(** The row group of one row of [defsrc]. *)
Definition row_group (layers : PyDict.dict KMonadLayer)
           (hardware : HardwareLayout) (st : Store) (rr : nat * list str)
  : str :=
  u "[" ++ join (u ",") (map (entry_text layers hardware st)
                             (row_entries hardware rr))
    ++ u "]".

Lemma build_rows (layers : PyDict.dict KMonadLayer)
      (hardware : HardwareLayout) (name : str) (st : Store)
      (defsrc : KMonadLayer) (data : str) (st0 st0' : Store) :
  PyDict.get (u "defsrc") layers = Some defsrc ->
  KeyCap_init data st0 = (Ok (keycap hardware), st0') ->
  exists colors,
    get_colors (keycap hardware) = Ok colors
    /\ build' layers hardware name st
       = (Ok (join (u "," ++ [newline])
                   ([u "[{a:0, y:-1, t:" ++ colors ++ u "}]"]
                      ++ map (row_group layers hardware st)
                             (enumerate (layer_rows defsrc))
                      ++ [footer name hardware])),
          st)
    /\ forall r c,
        label isalpha_beyond_ascii upper_beyond_ascii (keycap hardware)
              (key_labels layers r c) st
        = (Ok (entry_text layers hardware st (Key r c [])), st).
Proof.
  intros Hd Hinit.
  destruct (KeyCap_init_inv data st0 Hinit)
    as (g & colors & _ & _ & Hg & _ & Hkc).
  destruct (get_colors_ok g colors Hg) as (lit & Hlit).
  rewrite <- Hkc in Hlit.
  assert (Hslots : forall layer p,
             PyDict.get layer (layermap (keycap hardware)) = Some p ->
             p < 12).
  { rewrite Hkc. intros layer p Hp.
    now destruct (layermap_cell g colors Hg _ Hp)
      as (_ & r & c & _ & _ & L). }
  assert (Hkey : forall r c,
             label isalpha_beyond_ascii upper_beyond_ascii
                   (keycap hardware) (key_labels layers r c) st
             = (Ok (entry_text layers hardware st (Key r c [])), st)).
  { intros r c. now apply label_eq. }
  exists lit. split; [exact Hlit|]. split; [|exact Hkey].
  unfold build. rewrite Hd. unfold bind at 1. unfold lift at 1.
  rewrite Hlit. unfold bind at 1.
  rewrite (mapM_map _ (fun r => u "[" ++ join (u ",")
                                   (map (entry_text layers hardware st) r)
                                   ++ u "]")).
  - rewrite map_map. reflexivity.
  - intros r _. unfold bind.
    rewrite (mapM_map _ (entry_text layers hardware st)); [reflexivity|].
    intros [opt|kr kc kk] _; [reflexivity|].
    unfold KMonadConfig_keycap. exact (Hkey kr kc).
Qed.

(** X10.  [build] raises [KeyError] when the model has no layer named
    [defsrc].  With such a layer and a keycap that construction
    returned, it never fails, whatever the other layers hold and
    however short they are, and leaves the store as it was.  Its output
    is, joined by a comma and a line feed: the header entry with the
    colours literal; for each row of [defsrc], in order, a row group in
    square brackets holding, separated by commas and column by column,
    the options fragment of the base token when there is one,
    immediately followed by the label that [label] returns for the
    tokens all the layers bind at that row and column; and the footer
    entry with the file name and the description. *)
Theorem build_outcome (layers : PyDict.dict KMonadLayer)
        (hardware : HardwareLayout) (name : str) (st : Store) :
  (PyDict.get (u "defsrc") layers = None ->
     build' layers hardware name st = (Raise KeyError, st))
  /\ (forall defsrc data st0 st0',
        PyDict.get (u "defsrc") layers = Some defsrc ->
        KeyCap_init data st0 = (Ok (keycap hardware), st0') ->
        exists colors,
          get_colors (keycap hardware) = Ok colors
          /\ build' layers hardware name st
             = (Ok (join (u "," ++ [newline])
                         ([u "[{a:0, y:-1, t:" ++ colors ++ u "}]"]
                            ++ map (row_group layers hardware st)
                                   (enumerate (layer_rows defsrc))
                            ++ [footer name hardware])),
                st)
          /\ (forall rr,
                row_group layers hardware st rr
                = u "[" ++ join (u ",")
                             (map (entry_text layers hardware st)
                                  (row_entries hardware rr))
                    ++ u "]")
          /\ (forall r c k,
                exists lit,
                  label isalpha_beyond_ascii upper_beyond_ascii
                        (keycap hardware) (key_labels layers r c) st
                  = (Ok lit, st)
                  /\ entry_text layers hardware st (Key r c k) = lit)
          /\ (forall opt,
                entry_text layers hardware st (Fragment opt) = opt)).
Proof.
  split.
  - intros H. unfold build. now rewrite H.
  - intros defsrc data st0 st0' Hd Hinit.
    destruct (@build_rows layers hardware name st defsrc data st0 st0'
                         Hd Hinit)
      as (colors & Hc & Hb & Hkey).
    exists colors. split; [exact Hc|]. split; [exact Hb|].
    split; [reflexivity|]. split; [|reflexivity].
    intros r c k. eexists. split; [apply Hkey | reflexivity].
Qed.

End BuildOutcome.

(** *** Config builder: construction *)

(** The layer of a section, and the layers of a text keyed by name: what
    the loop of [KMonadConfig.__init__] leaves in [self.layers]. *)
Definition section_layer (text : str) (sec : Match) : KMonadLayer :=
  KMonadLayer_init (group text sec "layer") (Re.text text sec "data").

Definition parse_layers (text : str) : PyDict.dict KMonadLayer :=
  fold_left (fun ls sec => PyDict.set (layer_name (section_layer text sec))
                                      (section_layer text sec) ls)
            (finditer ConfigRe.LayoutSection text) [].

Lemma dict_fold_get {V X} (key : X -> str) (val : X -> V) (l : list X)
      (d0 : PyDict.dict V) (k : str) (v : V) :
  PyDict.get k (fold_left (fun d x => PyDict.set (key x) (val x) d) l d0)
  = Some v ->
  PyDict.get k d0 = Some v \/ exists x, In x l /\ key x = k /\ val x = v.
Proof.
  revert d0. induction l as [|x l IH]; intros d0; simpl; [now left|].
  intros H. apply IH in H as [H|(y & Hy & Hk & Hv)].
  - destruct (PyStr.eqb_spec k (key x)) as [->|Hne].
    + rewrite PyDict.get_set_same in H. injection H as <-.
      right. exists x. auto.
    + rewrite PyDict.get_set_other in H by exact Hne. now left.
  - right. exists y. auto.
Qed.

Lemma dict_fold_present {V X} (key : X -> str) (val : X -> V) (l : list X)
      (d0 : PyDict.dict V) (x : X) :
  In x l ->
  PyDict.get (key x)
             (fold_left (fun d x => PyDict.set (key x) (val x) d) l d0)
  <> None.
Proof.
  revert d0. induction l as [|y l IH]; intros d0; simpl; [contradiction|].
  intros [->|Hin]; [|now apply IH].
  clear IH.
  assert (H0 : PyDict.get (key x) (PyDict.set (key x) (val x) d0) <> None)
    by (rewrite PyDict.get_set_same; discriminate).
  revert H0. generalize (PyDict.set (key x) (val x) d0). clear d0.
  induction l as [|z l IH]; intros d Hd; simpl; [exact Hd|].
  apply IH. destruct (PyStr.eqb_spec (key x) (key z)) as [E|Hne].
  - rewrite E, PyDict.get_set_same. discriminate.
  - now rewrite PyDict.get_set_other.
Qed.

Lemma HardwareLayout_init_raise_store (data : str) (st st' : Store)
      (e : exn) :
  HardwareLayout_init data st = (Raise e, st') -> st' = st.
Proof.
  rewrite HardwareLayout_init_eq.
  destruct (search HardwareRe.Pattern data) as [m|];
    [|now intros [= _ <-]].
  cbv zeta.
  destruct (KeyCap_init (text data m "data") st) as [[kc|e'] st1] eqn:Hk;
    [discriminate|].
  intros [= _ <-]. exact (KeyCap_init_raise_store _ _ Hk).
Qed.

Section ConfigOutcome.

Variable isalpha_beyond_ascii : char -> bool.
Variable upper_beyond_ascii : char -> str.

Local Abbreviation build' :=
  (build isalpha_beyond_ascii upper_beyond_ascii).
Local Abbreviation KMonadConfig_init' :=
  (KMonadConfig_init isalpha_beyond_ascii upper_beyond_ascii).

Lemma KMonadConfig_init_eq (file text : str) (st : Store) :
  exists first,
    KMonadConfig_init' file text st
    = match HardwareLayout_init text st with
      | (Raise e, st1) => (Raise e, st1)
      | (Ok hw, st1) =>
        match build' (parse_layers text) hw file st1 with
        | (Raise e, st2) => (Raise e, st2)
        | (Ok out, st2) =>
          (Ok (MkKMonadConfig (parse_layers text) first hw file (Some out)),
           st2)
        end
      end.
Proof.
  unfold KMonadConfig_init, parse_layers.
  generalize (finditer ConfigRe.LayoutSection text). intros secs.
  assert (Hfold : forall ls f,
             exists f',
               fold_left
                 (fun '(layers, first) sec =>
                    let layer := KMonadLayer_init (group text sec "layer")
                                                  (Re.text text sec "data") in
                    (PyDict.set (layer_name layer) layer layers,
                     match first, group text sec "layer" with
                     | None, Some ((_ :: _) as l) => Some l
                     | _, _ => first
                     end))
                 secs (ls, f)
               = (fold_left
                    (fun ls sec =>
                       PyDict.set (layer_name (section_layer text sec))
                                  (section_layer text sec) ls)
                    secs ls, f')).
  { induction secs as [|sec secs IH]; intros ls f; simpl; [now exists f|].
    apply IH. }
  destruct (Hfold [] None) as (f' & Hf'). exists f'.
  match goal with
  | |- context [fold_left ?step secs ([], None)] =>
    destruct (fold_left step secs ([], None)) as [ls f] eqn:E
  end.
  pose proof (eq_trans (eq_sym E) Hf') as Hlf. injection Hlf as -> ->.
  unfold bind.
  destruct (HardwareLayout_init text st) as [[hw|e] st1]; [|reflexivity].
  now destruct (build' _ hw file st1) as [[out|e] st2].
Qed.

(** X11.  Constructing the whole model fails with the error of the
    hardware layout when that fails, the store being left as it was.
    With a hardware layout it fails exactly when no section of the text
    yields a layer named [defsrc], with [KeyError] and after the labels
    have been imported.  A model that is returned holds the file name,
    a layout, a [defsrc] layer, and layers that each come from a section
    of the text and are keyed by their own non-empty name. *)
Theorem KMonadConfig_init_outcome (file text : str) (st : Store) :
  (forall e st1,
      HardwareLayout_init text st = (Raise e, st1) ->
      KMonadConfig_init' file text st = (Raise e, st))
  /\ (forall hw st1,
        HardwareLayout_init text st = (Ok hw, st1) ->
        (forall sec, In sec (finditer ConfigRe.LayoutSection text) ->
                     layer_name (section_layer text sec) <> u "defsrc") ->
        KMonadConfig_init' file text st = (Raise KeyError, st1))
  /\ (forall hw st1 sec,
        HardwareLayout_init text st = (Ok hw, st1) ->
        In sec (finditer ConfigRe.LayoutSection text) ->
        layer_name (section_layer text sec) = u "defsrc" ->
        exists cfg, KMonadConfig_init' file text st = (Ok cfg, st1))
  /\ (forall cfg st',
        KMonadConfig_init' file text st = (Ok cfg, st') ->
        name cfg = file
        /\ HardwareLayout_init text st = (Ok (hardware cfg), st')
        /\ (exists out, layout cfg = Some out)
        /\ (exists defsrc,
              PyDict.get (u "defsrc") (layers cfg) = Some defsrc)
        /\ (forall k L,
              PyDict.get k (layers cfg) = Some L ->
              layer_name L = k /\ k <> []
              /\ exists sec,
                  In sec (finditer ConfigRe.LayoutSection text)
                  /\ L = section_layer text sec)).
Proof.
  destruct (KMonadConfig_init_eq file text st) as (first & Heq).
  assert (Hbuild : forall hw st1,
             HardwareLayout_init text st = (Ok hw, st1) ->
             (PyDict.get (u "defsrc") (parse_layers text) = None
              /\ build' (parse_layers text) hw file st1
                 = (Raise KeyError, st1))
             \/ (exists defsrc out,
                    PyDict.get (u "defsrc") (parse_layers text) = Some defsrc
                    /\ build' (parse_layers text) hw file st1
                       = (Ok out, st1))).
  { intros hw st1 Hhw.
    destruct (PyDict.get (u "defsrc") (parse_layers text)) as [d|] eqn:Hd.
    - right.
      rewrite HardwareLayout_init_eq in Hhw.
      destruct (search HardwareRe.Pattern text) as [m|]; [|discriminate].
      cbv zeta in Hhw.
      destruct (KeyCap_init (Re.text text m "data") st)
        as [[kc|e] st0] eqn:Hk; [|discriminate].
      injection Hhw as <- <-.
      destruct (@build_with_defsrc isalpha_beyond_ascii upper_beyond_ascii
                  (parse_layers text)
                  (MkHardwareLayout kc (Options.init (Re.text text m "data"))
                     (get_description (Re.text text m "data")))
                  file
                  (MkStore
                     (store_labels (Re.text text m "data")
                        (finditer HardwareRe.Label (Re.text text m "data"))
                        (kmonad_aliases st0))
                     (stdout st0))
                  d (Re.text text m "data") st st0 Hd Hk)
        as (colors & body & _ & _ & Hb).
      exists d. eexists. split; [reflexivity | exact Hb].
    - left. split; [reflexivity|]. unfold build. now rewrite Hd. }
  split; [|split; [|split]].
  - intros e st1 Hhw. rewrite Heq, Hhw.
    now rewrite (HardwareLayout_init_raise_store _ _ Hhw).
  - intros hw st1 Hhw Hnone. rewrite Heq, Hhw.
    destruct (Hbuild hw st1 Hhw) as [[_ ->]|(d & out & Hd & _)];
      [reflexivity|].
    exfalso. unfold parse_layers in Hd.
    apply dict_fold_get in Hd as [Hd|(sec & Hin & Hk & _)];
      [discriminate|].
    exact (Hnone sec Hin Hk).
  - intros hw st1 sec Hhw Hin Hname. rewrite Heq, Hhw.
    destruct (Hbuild hw st1 Hhw) as [[Hd _]|(d & out & _ & ->)];
      [|now eexists].
    exfalso. revert Hd. rewrite <- Hname. unfold parse_layers.
    apply (dict_fold_present
             (fun sec => layer_name (section_layer text sec))
             (section_layer text)). exact Hin.
  - intros cfg st'. rewrite Heq.
    destruct (HardwareLayout_init text st) as [[hw|e] st1] eqn:Hhw;
      [|discriminate].
    destruct (Hbuild hw st1 eq_refl) as [[_ ->]|(d & out & Hd & ->)];
      [discriminate|].
    intros [= <- <-]. simpl.
    split; [reflexivity|]. split; [reflexivity|].
    split; [now exists out|]. split; [now exists d|].
    intros k L HL. unfold parse_layers in HL.
    apply dict_fold_get in HL as [HL|(sec & Hin & Hk & HLs)];
      [discriminate|].
    subst k L. split; [reflexivity|]. split; [|now exists sec].
    unfold section_layer, KMonadLayer_init. simpl.
    destruct (group text sec "layer") as [[|c n]|]; discriminate.
Qed.

End ConfigOutcome.

(** *** Keycap model: backslashes in a label *)

(** A label line as it may appear between the quotes: an escaped
    backslash, an escaped quote, or a text without any backslash. *)
Definition line_escaped (line : str) : Prop :=
  line = u "\\" \/ line = backslash :: [dquote] \/ ~ In backslash line.

Lemma shown_escaped (text : str) : line_escaped (shown text).
Proof.
  unfold shown, line_escaped.
  destruct (PyStr.eqb_spec text (u "\\")) as [->|H1]; [now left|].
  destruct (PyStr.eqb_spec text (backslash :: [dquote])) as [->|H2];
    [right; now left|].
  simpl. right. right. apply replace_removes. intros [].
Qed.

Lemma update_Forall {X} (P : X -> Prop) (xs : list X) (i : nat) (x : X) :
  Forall P xs -> P x -> Forall P (update xs i x).
Proof.
  intros Hxs Hx. revert i. induction Hxs as [|y xs Hy Hxs IH];
    intros [|i]; simpl; constructor; auto.
Qed.

Lemma write_all_Forall (P : str -> Prop) (ws : list (nat * str))
      (lab : list str) :
  Forall P lab -> (forall w, In w ws -> P (snd w)) ->
  Forall P (write_all ws lab).
Proof.
  revert lab. induction ws as [|w ws IH]; intros lab Hlab Hws; [exact Hlab|].
  unfold write_all in *. simpl. apply IH.
  - apply update_Forall; [exact Hlab | apply Hws; now left].
  - intros w' Hw'. apply Hws. now right.
Qed.

Section LabelLines.

Variable isalpha_beyond_ascii : char -> bool.
Variable upper_beyond_ascii : char -> str.

Local Abbreviation label' :=
  (label isalpha_beyond_ascii upper_beyond_ascii).

(** X12.  For a keycap that construction returned, [label] never raises
    and leaves the store as it was, whatever mapping it is given.  Its
    literal joins twelve lines, and no line holds a backslash unless the
    whole line is an escaped backslash or an escaped quote: the
    backslashes of any other translated token are dropped. *)
Theorem label_lines_escaped (data : str) (st0 st0' : Store) (kc : KeyCap)
        (keys : PyDict.dict (option str)) (st : Store) :
  KeyCap_init data st0 = (Ok kc, st0') ->
  exists lab,
    label' kc keys st = (Ok (rendered lab), st)
    /\ length lab = 12
    /\ Forall line_escaped lab.
Proof.
  intros Hinit.
  destruct (KeyCap_init_inv data st0 Hinit)
    as (g & colors & _ & _ & Hg & _ & ->).
  eexists. split; [|split].
  - apply label_eq. intros layer p Hp.
    now destruct (layermap_cell g colors Hg _ Hp) as (_ & r & c & _ & _ & L).
  - now rewrite write_all_length.
  - apply write_all_Forall.
    + unfold empty_lab.
      repeat (apply Forall_cons; [right; right; intros []|]).
      apply Forall_nil.
    + intros w Hw. apply in_writes in Hw as (_ & tok & _ & _ & _ & ->).
      apply shown_escaped.
Qed.

End LabelLines.

(** A key whose overlay binds a token aliased to a text with
    backslashes. *)
Lemma label_lines_escaped_witness :
  exists lab,
    label ascii_letters_only ascii_upper_only sample_kc
          [ (u "a", Some (u "bksl")); (u "b", Some (u "a\b\c")) ] store0
    = (Ok (rendered lab), store0)
    /\ length lab = 12
    /\ Forall line_escaped lab.
Proof.
  assert (Hinit : KeyCap_init sample_keycap store0
                  = (Ok sample_kc, warned store0))
    by (vm_compute; reflexivity).
  exact (label_lines_escaped ascii_letters_only ascii_upper_only
           sample_keycap store0
           [ (u "a", Some (u "bksl")); (u "b", Some (u "a\b\c")) ]
           store0 Hinit).
Defined.

Example label_lines_escaped_run :
  fst (label ascii_letters_only ascii_upper_only sample_kc
             [ (u "a", Some (u "bksl")); (u "b", Some (u "a\b\c")) ] store0)
  = Ok (quoted (u "\\\n\n\n\n\n\n\n\nabc")).
Proof. vm_compute. reflexivity. Qed.

(** A run with an options fragment for the base token [b]: the fragment
    comes right before the label of its key. *)
Definition sample_config_options : str :=
  lines [ "(defsrc a b c"; "_ _ _)";
          "(deflayer nav F1 F2 F3)";
          "<hardware-layout>";
          "(keycap defsrc _ _"; "_ _ _"; "nav _ _"; "_ _ _)";
          "(options b {w:2})";
          "(description two rows)";
          "</hardware-layout>" ]%string.

Example build_outcome_run :
  layout_of (KMonadConfig_init ascii_letters_only ascii_upper_only
                               sample_file sample_config_options store0)
  = Some
      (join (u "," ++ [newline])
            [ u "[{a:0, y:-1, t:" ++ quoted (u "#000000\n#000000") ++ u "}]";
              u "[" ++ join (u ",") [ quoted (u "A\nF1"); u "{w:2}";
                                      quoted (u "B\nF2");
                                      quoted (u "C\nF3") ] ++ u "]";
              u "[" ++ join (u ",") [ quoted []; quoted []; quoted [] ]
                ++ u "]";
              u "[{f:4,w:20,h:3,d:true,t:" ++ quoted (u "#333333") ++ u "},"
                ++ quoted (sample_file ++ u "<br /><br />two rows")
                ++ u "]" ]).
Proof. vm_compute. reflexivity. Qed.
